(** * Student records and course registration

    A shallow embedding of [student.h] and [course_registration.cpp]:
    the [Student] record, the [CourseRegistration] ledger with its course
    catalog, and the operations [addCourse], [registerStudent],
    [validatePrerequisites], [withdrawStudent], [getEnrollmentCount] and
    [isCourseFull], followed by the properties of the registration rules.

    Conventions.
    - A C++ member function that mutates its object takes the object and
      returns the new one next to its result.
    - A member function that can throw returns an [outcome]: [Return v] or
      [Throw e]; the state reached when the exception leaves the function is
      returned next to it, because a C++ exception does not roll back the
      writes made before it.
    - [std::map<std::string, T>] is [gmap string T], [std::set<std::string>]
      is [gset string], [std::vector<std::string>] is [list string].
    - [int] and [time_t] are [Z]; the conversions between [int] and [size_t]
      are written out.
    - a [float] is a [spec_float] of the Standard Library, compared with the
      IEEE 754 comparison. *)

From Stdlib Require Import ZArith Floats.SpecFloat.
From stdpp Require Import gmap strings list fin_maps fin_sets.

(** ** C++ runtime: exceptions and integer conversions *)

Inductive exception : Type :=
  | invalid_argument
  | out_of_range
  | runtime_error.

Inductive outcome (A : Type) : Type :=
  | Return (a : A)
  | Throw (e : exception).
Arguments Return {A} a.
Arguments Throw {A} e.

Definition INT_MAX : Z := 2147483647.
Definition INT_MIN : Z := -2147483648.
Definition SIZE_MODULUS : Z := 2 ^ 64.

(** [int] to [size_t], the usual arithmetic conversion applied when an
    [int] is compared with a [size_t]. *)
Definition size_t_of_int (z : Z) : Z := (z mod SIZE_MODULUS)%Z.

(** [size_t] to [int], the conversion of a [return] in a function of
    result type [int]. *)
Definition int_of_size_t (z : Z) : Z :=
  ((z + 2 ^ 31) mod 2 ^ 32 - 2 ^ 31)%Z.

(** [std::set::erase(key)]: the number of elements removed and the set
    that is left. *)
Definition set_erase (key : string) (s : gset string) : nat * gset string :=
  (if bool_decide (key ∈ s) then 1 else 0, s ∖ {[key]}).

(** ** student.h *)

Inductive AcademicStanding : Type :=
  | EXCELLENT
  | GOOD
  | SATISFACTORY
  | PROBATION.

Record Student : Type := mkStudent {
  studentId : string;
  name : string;
  department : string;
  cgpa : spec_float;
  semester : Z;
  enrolledCourses : list string
}.

Definition getStudentId (s : Student) : string := studentId s.
Definition getEnrolledCourses (s : Student) : list string := enrolledCourses s.
Definition getCGPA (s : Student) : spec_float := cgpa s.

Definition set_enrolledCourses (s : Student) (l : list string) : Student :=
  {| studentId := studentId s; name := name s; department := department s;
     cgpa := cgpa s; semester := semester s; enrolledCourses := l |}.

(** The [float] literals 9.0, 7.0 and 5.0 in binary32 (24-bit mantissa). *)
Definition float_9_0 : spec_float := S754_finite false 9437184 (-20).
Definition float_7_0 : spec_float := S754_finite false 14680064 (-21).
Definition float_5_0 : spec_float := S754_finite false 10485760 (-21).

(** The C++ operators [>=] and [<] on floating-point values: both are false
    when an operand is a NaN. *)
Definition float_ge (x y : spec_float) : bool := SFleb y x.
Definition float_lt (x y : spec_float) : bool := SFltb x y.

(** Modelled from the spec: the body of [Student::getAcademicStanding],
    which [student.h] only declares (as a [const] member). The thresholds
    are those of the spec and of the comments on [AcademicStanding]. *)
Definition getAcademicStanding (s : Student) : AcademicStanding :=
  if float_ge (cgpa s) float_9_0 then EXCELLENT
  else if float_ge (cgpa s) float_7_0 then GOOD
  else if float_ge (cgpa s) float_5_0 then SATISFACTORY
  else PROBATION.

Section Model.

(** The maximum course limit of [Student::enrollInCourse]; neither the
    header nor the spec gives its value. *)
Variable MAX_COURSES : nat.

(** Modelled from the spec: the body of [Student::enrollInCourse], which
    [student.h] only declares. It returns false if the course is already in
    the list, throws [std::runtime_error] if the list has reached the
    maximum course limit, and otherwise appends the course and returns
    true. *)
Definition enrollInCourse (s : Student) (courseCode : string)
  : outcome bool * Student :=
  if bool_decide (courseCode ∈ enrolledCourses s) then (Return false, s)
  else if MAX_COURSES <=? length (enrolledCourses s) then (Throw runtime_error, s)
  else (Return true, set_enrolledCourses s (enrolledCourses s ++ [courseCode])).

(** ** course_registration.cpp *)

Inductive RegistrationStatus : Type :=
  | SUCCESS
  | COURSE_FULL
  | PREREQ_NOT_MET
  | TIME_CONFLICT
  | ALREADY_ENROLLED
  | REGISTRATION_CLOSED.

Record CourseInfo : Type := mkCourseInfo {
  courseName : string;
  maxCapacity : Z;
  prerequisites : gset string;
  enrolledStudents : gset string;
  registrationDeadline : Z
}.

Record CourseRegistration : Type := mkCourseRegistration {
  courses : gmap string CourseInfo
}.

Definition set_enrolledStudents (c : CourseInfo) (e : gset string) : CourseInfo :=
  {| courseName := courseName c; maxCapacity := maxCapacity c;
     prerequisites := prerequisites c; enrolledStudents := e;
     registrationDeadline := registrationDeadline c |}.

(** A default-constructed [CourseRegistration]. *)
Definition empty_registration : CourseRegistration := {| courses := ∅ |}.

Definition addCourse (reg : CourseRegistration) (courseCode courseName : string)
    (capacity : Z) (prerequisites : gset string) (deadline : Z)
  : outcome unit * CourseRegistration :=
  match courses reg !! courseCode with
  | Some _ => (Throw invalid_argument, reg)
  | None =>
      if (capacity <? 0)%Z then (Throw out_of_range, reg)
      else
        let info := {| courseName := courseName; maxCapacity := capacity;
                       prerequisites := prerequisites; enrolledStudents := ∅;
                       registrationDeadline := deadline |} in
        (Return tt, {| courses := <[courseCode := info]> (courses reg) |})
  end.

(** The loop of [validatePrerequisites]: [std::find] over the student's
    courses for each prerequisite, leaving with false at the first one that
    is missing. *)
Fixpoint all_found (prereqs completedCourses : list string) : bool :=
  match prereqs with
  | [] => true
  | prereq :: rest =>
      if bool_decide (prereq ∈ completedCourses) then all_found rest completedCourses
      else false
  end.

Definition validatePrerequisites (reg : CourseRegistration) (student : Student)
    (courseCode : string) : bool :=
  match courses reg !! courseCode with
  | None => false
  | Some course =>
      all_found (elements (prerequisites course)) (getEnrolledCourses student)
  end.

(** What a call of [registerStudent] leaves behind: its result or the
    exception, the ledger and the student. *)
Record Registered : Type := mkRegistered {
  status : outcome RegistrationStatus;
  reg_after : CourseRegistration;
  student_after : Student
}.

(** [now] is the value of [time(nullptr)] at the call. *)
Definition registerStudent (now : Z) (reg : CourseRegistration) (student : Student)
    (courseCode : string) : Registered :=
  match courses reg !! courseCode with
  | None => mkRegistered (Throw invalid_argument) reg student
  | Some course =>
      if (now >? registrationDeadline course)%Z then
        mkRegistered (Return REGISTRATION_CLOSED) reg student
      else if bool_decide (getStudentId student ∈ enrolledStudents course) then
        mkRegistered (Return ALREADY_ENROLLED) reg student
      else if (Z.of_nat (size (enrolledStudents course))
                 >=? size_t_of_int (maxCapacity course))%Z then
        mkRegistered (Return COURSE_FULL) reg student
      else if negb (validatePrerequisites reg student courseCode) then
        mkRegistered (Return PREREQ_NOT_MET) reg student
      else
        let course' :=
          set_enrolledStudents course
            ({[getStudentId student]} ∪ enrolledStudents course) in
        let reg' := {| courses := <[courseCode := course']> (courses reg) |} in
        match enrollInCourse student courseCode with
        | (Return _, student') => mkRegistered (Return SUCCESS) reg' student'
        | (Throw e, student') => mkRegistered (Throw e) reg' student'
        end
  end.

Definition withdrawStudent (reg : CourseRegistration) (studentId courseCode : string)
  : bool * CourseRegistration :=
  match courses reg !! courseCode with
  | None => (false, reg)
  | Some course =>
      let '(removed, rest) := set_erase studentId (enrolledStudents course) in
      (bool_decide (0 < removed),
       {| courses := <[courseCode := set_enrolledStudents course rest]> (courses reg) |})
  end.

Definition getEnrollmentCount (reg : CourseRegistration) (courseCode : string)
  : outcome Z :=
  match courses reg !! courseCode with
  | None => Throw out_of_range
  | Some course => Return (int_of_size_t (Z.of_nat (size (enrolledStudents course))))
  end.

Definition isCourseFull (reg : CourseRegistration) (courseCode : string)
  : outcome bool :=
  match courses reg !! courseCode with
  | None => Throw out_of_range
  | Some course =>
      Return (Z.of_nat (size (enrolledStudents course))
                >=? size_t_of_int (maxCapacity course))%Z
  end.

(** ** The caller's view

    The ledger holds student IDs only; the [Student] objects belong to the
    caller. A [World] is the ledger together with the caller's objects,
    each under a handle. *)

Record World : Type := mkWorld {
  registration : CourseRegistration;
  students : gmap nat Student
}.

Definition initial_world : World :=
  {| registration := empty_registration; students := ∅ |}.

(** The calls a caller can make. [CallStudent h s] stands for whatever the
    caller does to its own object [h] through the [Student] interface
    (construction, [enrollInCourse], [updateCGPA], ...): the object may
    become any [Student]. *)
Inductive call : Type :=
  | CallAddCourse (courseCode courseName : string) (capacity : Z)
      (prerequisites : gset string) (deadline : Z)
  | CallRegisterStudent (now : Z) (h : nat) (courseCode : string)
  | CallWithdrawStudent (studentId courseCode : string)
  | CallStudent (h : nat) (s : Student).

Definition exec (w : World) (c : call) : World :=
  match c with
  | CallAddCourse code cname capacity prereqs deadline =>
      {| registration := (addCourse (registration w) code cname capacity prereqs deadline).2;
         students := students w |}
  | CallRegisterStudent now h code =>
      match students w !! h with
      | None => w
      | Some s =>
          let r := registerStudent now (registration w) s code in
          {| registration := reg_after r;
             students := <[h := student_after r]> (students w) |}
      end
  | CallWithdrawStudent sid code =>
      {| registration := (withdrawStudent (registration w) sid code).2;
         students := students w |}
  | CallStudent h s =>
      {| registration := registration w; students := <[h := s]> (students w) |}
  end.

Definition run (calls : list call) (w : World) : World := foldl exec w calls.

(** The [capacity] argument of [addCourse] is an [int]. *)
Definition call_typed (c : call) : Prop :=
  match c with
  | CallAddCourse _ _ capacity _ _ => (INT_MIN ≤ capacity ≤ INT_MAX)%Z
  | _ => True
  end.

Definition reachable (w : World) : Prop :=
  ∃ calls, Forall call_typed calls ∧ w = run calls initial_world.

End Model.

(** ** The capacity invariant and its companion *)

(** No course holds more students than its capacity. *)
Definition within_capacity (reg : CourseRegistration) : Prop :=
  ∀ code c, courses reg !! code = Some c →
    (Z.of_nat (size (enrolledStudents c)) ≤ maxCapacity c)%Z.

(** Every capacity fits the [int] it is stored in. *)
Definition capacity_is_int (reg : CourseRegistration) : Prop :=
  ∀ code c, courses reg !! code = Some c → (maxCapacity c ≤ INT_MAX)%Z.

(** Prerequisite satisfaction as the spec words it: every prerequisite of
    the course is in the student's list of enrolled courses. *)
Definition prerequisites_enrolled (c : CourseInfo) (s : Student) : Prop :=
  ∀ p, p ∈ prerequisites c → p ∈ enrolledCourses s.

(** How [registerStudent] ends once its four checks have passed: with
    SUCCESS if [enrollInCourse] returned, with its exception otherwise. *)
Definition after_checks (enrolled : outcome bool) : outcome RegistrationStatus :=
  match enrolled with
  | Return _ => Return SUCCESS
  | Throw e => Throw e
  end.

(** Two records of one course that differ at most in the enrolled
    students: name, capacity, prerequisites and deadline are the same. *)
Definition same_course_data (c c' : CourseInfo) : Prop :=
  courseName c' = courseName c
  ∧ maxCapacity c' = maxCapacity c
  ∧ prerequisites c' = prerequisites c
  ∧ registrationDeadline c' = registrationDeadline c.

(** ** Example data *)

Definition zero_cgpa : spec_float := S754_zero false.

Definition alice : Student := mkStudent "S1" "Alice" "CS" zero_cgpa 1 [].
Definition bob : Student := mkStudent "S2" "Bob" "CS" zero_cgpa 1 [].

(** A student who has six courses already. *)
Definition carol : Student :=
  mkStudent "S3" "Carol" "CS" zero_cgpa 1
    ["MA101"; "MA102"; "PH101"; "PH102"; "CH101"; "HS101"].

Definition add_cs201 : call :=
  CallAddCourse "CS201" "Data Structures" 60 ∅ 100.

Definition cs201 : CourseInfo :=
  {| courseName := "Data Structures"; maxCapacity := 60; prerequisites := ∅;
     enrolledStudents := ∅; registrationDeadline := 100 |}.

(** The ledger after [addCourse("CS201", "Data Structures", 60, {}, 100)],
    with a course limit of six. *)
Definition ledger_cs201 : CourseRegistration :=
  registration (run 6 [add_cs201] initial_world).

(** A seminar of capacity one whose only seat is taken by Alice and whose
    deadline has passed at time 200. *)
Definition seminar_calls : list call :=
  [CallAddCourse "SE301" "Seminar" 1 ∅ 100;
   CallStudent 0 alice;
   CallRegisterStudent 50 0 "SE301"].

Definition ledger_seminar : CourseRegistration :=
  registration (run 6 seminar_calls initial_world).

Definition seminar_world : World := run 6 seminar_calls initial_world.

(** The seminar as the ledger holds it then. *)
Definition seminar_taken : CourseInfo :=
  {| courseName := "Seminar"; maxCapacity := 1; prerequisites := ∅;
     enrolledStudents := {["S1"]}; registrationDeadline := 100 |}.

(** Alice registers for CS201 and is withdrawn from it: the ledger has
    forgotten her, her own list has not. *)
Definition withdrawn_calls : list call :=
  [add_cs201;
   CallStudent 0 alice;
   CallRegisterStudent 50 0 "CS201";
   CallWithdrawStudent "S1" "CS201"].

Definition withdrawn_world : World := run 6 withdrawn_calls initial_world.

Definition alice_in_cs201 : Student := set_enrolledCourses alice ["CS201"].

(** CS201 after the call of [registerStudent] for Carol. *)
Definition cs201_with_carol : CourseInfo :=
  set_enrolledStudents cs201 {["S3"]}.

(** Students with a CGPA of 9.0, 8.0, 6.0 and 4.0. *)
Definition float_8_0 : spec_float := S754_finite false 8388608 (-20).
Definition float_6_0 : spec_float := S754_finite false 12582912 (-21).
Definition float_4_0 : spec_float := S754_finite false 8388608 (-21).

Definition with_cgpa (s : Student) (x : spec_float) : Student :=
  {| studentId := studentId s; name := name s; department := department s;
     cgpa := x; semester := semester s; enrolledCourses := enrolledCourses s |}.

(** The world whose ledger is [ledger_cs201]. *)
Definition cs201_world : World := run 6 [add_cs201] initial_world.

(** The ledger after Alice has registered for CS201 at time 50. *)
Definition ledger_alice_in_cs201 : CourseRegistration :=
  reg_after (registerStudent 6 50 ledger_cs201 alice "CS201").

(** A catalog with a course that has a prerequisite: CS301 requires
    CS201. *)
Definition cs301 : CourseInfo :=
  {| courseName := "Algorithms"; maxCapacity := 30; prerequisites := {["CS201"]};
     enrolledStudents := ∅; registrationDeadline := 100 |}.

Definition ledger_cs301 : CourseRegistration :=
  registration
    (run 6 [add_cs201; CallAddCourse "CS301" "Algorithms" 30 {["CS201"]} 100]
       initial_world).

Definition alice_two_courses : Student :=
  set_enrolledCourses alice ["CS201"; "MA101"].

(** ** Properties *)

Section Properties.

Variable MAX_COURSES : nat.

(** *** Integer conversions *)

Lemma size_t_of_int_id z : (0 ≤ z ≤ INT_MAX)%Z → size_t_of_int z = z.
Proof.
  intros Hz. unfold size_t_of_int, SIZE_MODULUS, INT_MAX in *.
  apply Z.mod_small. lia.
Qed.

Lemma size_t_of_int_le z : (0 ≤ z)%Z → (size_t_of_int z ≤ z)%Z.
Proof.
  intros Hz. unfold size_t_of_int, SIZE_MODULUS.
  apply Z.mod_le; lia.
Qed.

Lemma int_of_size_t_id z : (0 ≤ z ≤ INT_MAX)%Z → int_of_size_t z = z.
Proof.
  intros Hz. unfold int_of_size_t, INT_MAX in *.
  rewrite Z.mod_small; lia.
Qed.

(** *** Sets *)

Lemma set_erase_removed key (s : gset string) :
  (set_erase key s).1 = 1 ∧ key ∈ s ∨ (set_erase key s).1 = 0 ∧ key ∉ s.
Proof.
  unfold set_erase; simpl. case_bool_decide; [left | right]; done.
Qed.

Lemma size_erase_present key (s : gset string) :
  key ∈ s → S (size (s ∖ {[key]})) = size s.
Proof.
  intros Hin.
  rewrite (size_difference s {[key]}) by set_solver.
  rewrite size_singleton.
  assert (size s ≠ 0) by (apply size_non_empty_iff; set_solver).
  lia.
Qed.

Lemma size_erase_le key (s : gset string) : size (s ∖ {[key]}) ≤ size s.
Proof. apply subseteq_size, subseteq_difference_l. done. Qed.

Lemma size_insert_fresh key (s : gset string) :
  key ∉ s → size ({[key]} ∪ s) = S (size s).
Proof.
  intros Hnotin. rewrite size_union by set_solver.
  by rewrite size_singleton.
Qed.

(** *** validatePrerequisites *)

Lemma all_found_spec prereqs completed :
  all_found prereqs completed = true ↔ ∀ p, p ∈ prereqs → p ∈ completed.
Proof.
  induction prereqs as [|q rest IH]; simpl.
  - split; [intros _ p Hp; by apply elem_of_nil in Hp | done].
  - case_bool_decide as Hq.
    + rewrite IH. split.
      * intros Hrest p Hp. apply elem_of_cons in Hp as [-> | Hp]; auto.
      * intros Hall p Hp. apply Hall. by apply elem_of_cons; right.
    + split; [done |]. intros Hall. exfalso. apply Hq, Hall, elem_of_cons. by left.
Qed.

Lemma validatePrerequisites_known reg s code c :
  courses reg !! code = Some c →
  validatePrerequisites reg s code = true ↔ prerequisites_enrolled c s.
Proof.
  intros Hc. unfold validatePrerequisites, getEnrolledCourses, prerequisites_enrolled.
  rewrite Hc, all_found_spec.
  split; intros H p Hp; apply H; by apply elem_of_elements.
Qed.

(** C4. [validatePrerequisites student courseCode] is true exactly when the
    course is in the catalog and each of its prerequisites is in the
    student's list of enrolled courses; for a course that is not in the
    catalog it is false. *)
Theorem validatePrerequisites_iff reg s code :
  (validatePrerequisites reg s code = true ↔
     ∃ c, courses reg !! code = Some c ∧
          ∀ p, p ∈ prerequisites c → p ∈ enrolledCourses s)
  ∧ (courses reg !! code = None → validatePrerequisites reg s code = false).
Proof.
  split.
  - destruct (courses reg !! code) as [c|] eqn:Hc.
    + rewrite (validatePrerequisites_known _ _ _ _ Hc). split.
      * intros H. by exists c.
      * intros (c' & Hc' & Hall). assert (c' = c) as -> by congruence. exact Hall.
    + unfold validatePrerequisites. rewrite Hc. split; [done |].
      intros (c' & Hc' & _). done.
  - intros Hc. unfold validatePrerequisites. by rewrite Hc.
Qed.


(** *** addCourse *)

Lemma addCourse_duplicate reg code cname capacity prereqs deadline :
  is_Some (courses reg !! code) →
  addCourse reg code cname capacity prereqs deadline = (Throw invalid_argument, reg).
Proof. intros [c Hc]. unfold addCourse. by rewrite Hc. Qed.

Lemma addCourse_negative reg code cname capacity prereqs deadline :
  courses reg !! code = None → (capacity < 0)%Z →
  addCourse reg code cname capacity prereqs deadline = (Throw out_of_range, reg).
Proof.
  intros Hc Hneg. unfold addCourse. rewrite Hc.
  by rewrite (proj2 (Z.ltb_lt _ _) Hneg).
Qed.

Lemma addCourse_fresh reg code cname capacity prereqs deadline :
  courses reg !! code = None → (0 ≤ capacity)%Z →
  addCourse reg code cname capacity prereqs deadline =
    (Return tt,
     {| courses := <[code := mkCourseInfo cname capacity prereqs ∅ deadline]> (courses reg) |}).
Proof.
  intros Hc Hpos. unfold addCourse. rewrite Hc.
  by rewrite (proj2 (Z.ltb_ge _ _) Hpos).
Qed.

(** C7. [addCourse] throws [std::invalid_argument] if the course code is in
    the catalog already, throws [std::out_of_range] if (the code is new and)
    the capacity is negative, both without touching the catalog, and
    otherwise stores under the code a course with the given name, capacity,
    prerequisites and deadline and no enrolled student; the other entries
    of the catalog stay as they were. *)
Theorem addCourse_spec reg code cname capacity prereqs deadline :
  let r := addCourse reg code cname capacity prereqs deadline in
  (is_Some (courses reg !! code) → r = (Throw invalid_argument, reg))
  ∧ (courses reg !! code = None → (capacity < 0)%Z → r = (Throw out_of_range, reg))
  ∧ (courses reg !! code = None → (0 ≤ capacity)%Z →
       r.1 = Return tt
       ∧ courses r.2 !! code = Some (mkCourseInfo cname capacity prereqs ∅ deadline)
       ∧ (∀ c, courses r.2 !! code = Some c → enrolledStudents c = ∅)
       ∧ (∀ other, other ≠ code → courses r.2 !! other = courses reg !! other)).
Proof.
  cbv zeta. split; [| split].
  - apply addCourse_duplicate.
  - apply addCourse_negative.
  - intros Hc Hpos. rewrite (addCourse_fresh _ _ _ _ _ _ Hc Hpos). simpl.
    rewrite lookup_insert_eq. repeat split.
    + intros c Heq. by simplify_eq.
    + intros other Hne. by rewrite lookup_insert_ne.
Qed.

(** C10. The duplicate check of [addCourse] comes before its capacity
    check: a call with a course code that is in the catalog and a negative
    capacity throws [std::invalid_argument], not [std::out_of_range], and
    leaves the catalog as it was. *)
Theorem addCourse_duplicate_before_capacity reg code cname capacity prereqs deadline :
  is_Some (courses reg !! code) → (capacity < 0)%Z →
  (addCourse reg code cname capacity prereqs deadline).1 = Throw invalid_argument
  ∧ (addCourse reg code cname capacity prereqs deadline).1 ≠ Throw out_of_range
  ∧ (addCourse reg code cname capacity prereqs deadline).2 = reg.
Proof.
  intros Hdup _. rewrite (addCourse_duplicate _ _ _ _ _ _ Hdup). simpl.
  repeat split. discriminate.
Qed.

(** *** registerStudent: the result *)

(** [enrollInCourse] answers false exactly for a course that is in the
    list, and raises exactly when the course is new and the list is at the
    limit. *)
Lemma enrollInCourse_cases s code :
  (code ∈ enrolledCourses s ∧ enrollInCourse MAX_COURSES s code = (Return false, s))
  ∨ ((code ∉ enrolledCourses s) ∧ MAX_COURSES ≤ length (enrolledCourses s)
     ∧ enrollInCourse MAX_COURSES s code = (Throw runtime_error, s))
  ∨ ((code ∉ enrolledCourses s) ∧ length (enrolledCourses s) < MAX_COURSES
     ∧ enrollInCourse MAX_COURSES s code =
         (Return true, set_enrolledCourses s (enrolledCourses s ++ [code]))).
Proof.
  unfold enrollInCourse. case_bool_decide as Hin; [by left |].
  right. destruct (MAX_COURSES <=? length (enrolledCourses s)) eqn:Hlim.
  - left. apply Nat.leb_le in Hlim. done.
  - right. apply Nat.leb_gt in Hlim. done.
Qed.

Lemma registerStudent_unknown now reg s code :
  courses reg !! code = None →
  registerStudent MAX_COURSES now reg s code = mkRegistered (Throw invalid_argument) reg s.
Proof. intros Hc. unfold registerStudent. by rewrite Hc. Qed.

Lemma registerStudent_closed now reg s code c :
  courses reg !! code = Some c → (now > registrationDeadline c)%Z →
  registerStudent MAX_COURSES now reg s code = mkRegistered (Return REGISTRATION_CLOSED) reg s.
Proof.
  intros Hc Hlate. unfold registerStudent. rewrite Hc.
  by rewrite (proj2 (Z.gtb_gt _ _) Hlate).
Qed.

Lemma registerStudent_open now reg s code c :
  courses reg !! code = Some c → (now ≤ registrationDeadline c)%Z →
  registerStudent MAX_COURSES now reg s code =
    if bool_decide (studentId s ∈ enrolledStudents c) then
      mkRegistered (Return ALREADY_ENROLLED) reg s
    else if (Z.of_nat (size (enrolledStudents c)) >=? size_t_of_int (maxCapacity c))%Z then
      mkRegistered (Return COURSE_FULL) reg s
    else if negb (validatePrerequisites reg s code) then
      mkRegistered (Return PREREQ_NOT_MET) reg s
    else
      mkRegistered (after_checks (enrollInCourse MAX_COURSES s code).1)
        {| courses := <[code := set_enrolledStudents c ({[studentId s]} ∪ enrolledStudents c)]>
                        (courses reg) |}
        (enrollInCourse MAX_COURSES s code).2.
Proof.
  intros Hc Hopen. unfold registerStudent, getStudentId. rewrite Hc.
  assert ((now >? registrationDeadline c)%Z = false) as ->.
  { rewrite Z.gtb_ltb. apply Z.ltb_ge. lia. }
  repeat (case_match; try done); simplify_eq/=; done.
Qed.

(** *** The invariants, operation by operation *)

Lemma addCourse_within_capacity reg code cname capacity prereqs deadline :
  within_capacity reg →
  within_capacity (addCourse reg code cname capacity prereqs deadline).2.
Proof.
  intros Hinv.
  destruct (courses reg !! code) as [c|] eqn:Hc.
  { by rewrite addCourse_duplicate. }
  destruct (Z.lt_ge_cases capacity 0) as [Hneg | Hpos].
  { by rewrite addCourse_negative. }
  rewrite addCourse_fresh by done. intros code' c'. cbn [snd courses].
  destruct (decide (code = code')) as [<- | Hne].
  - rewrite lookup_insert_eq. intros [= <-]. unfold set_enrolledStudents. cbn [enrolledStudents maxCapacity].
    rewrite size_empty. lia.
  - rewrite lookup_insert_ne by done. apply Hinv.
Qed.

Lemma addCourse_capacity_is_int reg code cname capacity prereqs deadline :
  (INT_MIN ≤ capacity ≤ INT_MAX)%Z →
  capacity_is_int reg →
  capacity_is_int (addCourse reg code cname capacity prereqs deadline).2.
Proof.
  intros Hint Hinv.
  destruct (courses reg !! code) as [c|] eqn:Hc.
  { by rewrite addCourse_duplicate. }
  destruct (Z.lt_ge_cases capacity 0) as [Hneg | Hpos].
  { by rewrite addCourse_negative. }
  rewrite addCourse_fresh by done. intros code' c'. cbn [snd courses].
  destruct (decide (code = code')) as [<- | Hne].
  - rewrite lookup_insert_eq. intros [= <-]. unfold set_enrolledStudents. cbn [enrolledStudents maxCapacity]. lia.
  - rewrite lookup_insert_ne by done. apply Hinv.
Qed.

Lemma registerStudent_ledger now reg s code :
  reg_after (registerStudent MAX_COURSES now reg s code) = reg
  ∨ ∃ c, courses reg !! code = Some c
       ∧ (studentId s ∉ enrolledStudents c)
       ∧ (Z.of_nat (size (enrolledStudents c)) < size_t_of_int (maxCapacity c))%Z
       ∧ reg_after (registerStudent MAX_COURSES now reg s code) =
           {| courses := <[code := set_enrolledStudents c ({[studentId s]} ∪ enrolledStudents c)]>
                           (courses reg) |}.
Proof.
  destruct (courses reg !! code) as [c|] eqn:Hc.
  2: { left. by rewrite registerStudent_unknown. }
  destruct (Z.lt_ge_cases (registrationDeadline c) now) as [Hlate | Hopen].
  { left. rewrite (registerStudent_closed now reg s code c); [done | done | lia]. }
  rewrite (registerStudent_open now reg s code c) by done.
  case_bool_decide as Hin; [by left |].
  destruct (_ >=? _)%Z eqn:Hfull; [by left |].
  destruct (negb _); [by left |].
  right. exists c. repeat split; try done.
  rewrite Z.geb_leb in Hfull. apply Z.leb_gt in Hfull. done.
Qed.

Lemma registerStudent_within_capacity now reg s code :
  within_capacity reg →
  within_capacity (reg_after (registerStudent MAX_COURSES now reg s code)).
Proof.
  intros Hinv.
  destruct (registerStudent_ledger now reg s code)
    as [-> | (c & Hc & Hnew & Hroom & ->)]; [done |].
  intros code' c'. cbn [courses].
  destruct (decide (code = code')) as [<- | Hne].
  - rewrite lookup_insert_eq. intros [= <-]. unfold set_enrolledStudents. cbn [enrolledStudents maxCapacity].
    rewrite size_insert_fresh by done.
    pose proof (Hinv _ _ Hc) as Hle.
    assert (size_t_of_int (maxCapacity c) ≤ maxCapacity c)%Z
      by (apply size_t_of_int_le; lia).
    lia.
  - rewrite lookup_insert_ne by done. apply Hinv.
Qed.

Lemma registerStudent_capacity_is_int now reg s code :
  capacity_is_int reg →
  capacity_is_int (reg_after (registerStudent MAX_COURSES now reg s code)).
Proof.
  intros Hinv.
  destruct (registerStudent_ledger now reg s code)
    as [-> | (c & Hc & _ & _ & ->)]; [done |].
  intros code' c'. cbn [courses].
  destruct (decide (code = code')) as [<- | Hne].
  - rewrite lookup_insert_eq. intros [= <-]. unfold set_enrolledStudents. cbn [enrolledStudents maxCapacity]. by apply (Hinv code).
  - rewrite lookup_insert_ne by done. apply Hinv.
Qed.

Lemma withdrawStudent_known reg sid code c :
  courses reg !! code = Some c →
  withdrawStudent reg sid code =
    (bool_decide (sid ∈ enrolledStudents c),
     {| courses := <[code := set_enrolledStudents c (enrolledStudents c ∖ {[sid]})]>
                     (courses reg) |}).
Proof.
  intros Hc. unfold withdrawStudent, set_erase. rewrite Hc.
  f_equal. repeat case_bool_decide; done || lia.
Qed.

Lemma withdrawStudent_unknown reg sid code :
  courses reg !! code = None → withdrawStudent reg sid code = (false, reg).
Proof. intros Hc. unfold withdrawStudent. by rewrite Hc. Qed.

Lemma withdrawStudent_within_capacity reg sid code :
  within_capacity reg → within_capacity (withdrawStudent reg sid code).2.
Proof.
  intros Hinv. destruct (courses reg !! code) as [c|] eqn:Hc.
  2: { by rewrite withdrawStudent_unknown. }
  rewrite (withdrawStudent_known _ _ _ _ Hc). intros code' c'. cbn [snd courses].
  destruct (decide (code = code')) as [<- | Hne].
  - rewrite lookup_insert_eq. intros [= <-]. unfold set_enrolledStudents. cbn [enrolledStudents maxCapacity].
    pose proof (Hinv _ _ Hc). pose proof (size_erase_le sid (enrolledStudents c)). lia.
  - rewrite lookup_insert_ne by done. apply Hinv.
Qed.

Lemma withdrawStudent_capacity_is_int reg sid code :
  capacity_is_int reg → capacity_is_int (withdrawStudent reg sid code).2.
Proof.
  intros Hinv. destruct (courses reg !! code) as [c|] eqn:Hc.
  2: { by rewrite withdrawStudent_unknown. }
  rewrite (withdrawStudent_known _ _ _ _ Hc). intros code' c'. cbn [snd courses].
  destruct (decide (code = code')) as [<- | Hne].
  - rewrite lookup_insert_eq. intros [= <-]. unfold set_enrolledStudents. cbn [enrolledStudents maxCapacity]. by apply (Hinv code).
  - rewrite lookup_insert_ne by done. apply Hinv.
Qed.

Lemma exec_within_capacity w c :
  within_capacity (registration w) →
  within_capacity (registration (exec MAX_COURSES w c)).
Proof.
  intros Hinv. destruct c as [code cname cap pre dl | now h code | sid code | h s]; simpl.
  - by apply addCourse_within_capacity.
  - destruct (students w !! h); [| done]. simpl.
    by apply registerStudent_within_capacity.
  - by apply withdrawStudent_within_capacity.
  - done.
Qed.

Lemma exec_capacity_is_int w c :
  call_typed c →
  capacity_is_int (registration w) →
  capacity_is_int (registration (exec MAX_COURSES w c)).
Proof.
  intros Hty Hinv.
  destruct c as [code cname cap pre dl | now h code | sid code | h s]; simpl.
  - by apply addCourse_capacity_is_int.
  - destruct (students w !! h); [| done]. simpl.
    by apply registerStudent_capacity_is_int.
  - by apply withdrawStudent_capacity_is_int.
  - done.
Qed.

Lemma run_within_capacity calls w :
  within_capacity (registration w) →
  within_capacity (registration (run MAX_COURSES calls w)).
Proof.
  revert w. induction calls as [|c calls IH]; intros w Hinv; [done |].
  simpl. apply IH. by apply exec_within_capacity.
Qed.

Lemma run_capacity_is_int calls w :
  Forall call_typed calls →
  capacity_is_int (registration w) →
  capacity_is_int (registration (run MAX_COURSES calls w)).
Proof.
  intros Hty. revert w. induction Hty as [|c calls Hc _ IH]; intros w Hinv; [done |].
  simpl. apply IH. by apply exec_capacity_is_int.
Qed.

Lemma empty_within_capacity : within_capacity empty_registration.
Proof. intros code c Hc. simpl in Hc. by rewrite lookup_empty in Hc. Qed.

Lemma empty_capacity_is_int : capacity_is_int empty_registration.
Proof. intros code c Hc. simpl in Hc. by rewrite lookup_empty in Hc. Qed.

(** In a ledger the program can reach, a capacity is a non-negative [int]
    and no course is over its capacity. *)
Lemma reachable_capacity w code c :
  reachable MAX_COURSES w →
  courses (registration w) !! code = Some c →
  (Z.of_nat (size (enrolledStudents c)) ≤ maxCapacity c ≤ INT_MAX)%Z.
Proof.
  intros (calls & Hty & ->) Hc. split.
  - by apply (run_within_capacity calls initial_world empty_within_capacity code).
  - by apply (run_capacity_is_int calls initial_world Hty empty_capacity_is_int code).
Qed.

(** C3. No course ever holds more students than its [maxCapacity]: the
    empty catalog satisfies this, every call of [addCourse],
    [registerStudent] and [withdrawStudent] (and anything the caller does to
    its [Student] objects) preserves it, also when the call throws, and so
    it holds after every sequence of calls from the empty catalog. *)
Theorem capacity_invariant :
  within_capacity (registration initial_world)
  ∧ (∀ w c, within_capacity (registration w) →
            within_capacity (registration (exec MAX_COURSES w c)))
  ∧ (∀ calls code c,
       courses (registration (run MAX_COURSES calls initial_world)) !! code = Some c →
       (Z.of_nat (size (enrolledStudents c)) ≤ maxCapacity c)%Z).
Proof.
  split; [| split].
  - apply empty_within_capacity.
  - apply exec_within_capacity.
  - intros calls. apply run_within_capacity, empty_within_capacity.
Qed.

(** *** registerStudent: the order of the checks *)

(** Once the deadline, enrollment, capacity and prerequisite checks have
    passed, the student ID is in the course's set whatever
    [enrollInCourse] does, and [registerStudent] ends as [enrollInCourse]
    lets it. *)
Lemma registerStudent_checks_passed now reg s code c :
  courses reg !! code = Some c →
  (now ≤ registrationDeadline c)%Z →
  studentId s ∉ enrolledStudents c →
  (Z.of_nat (size (enrolledStudents c)) < size_t_of_int (maxCapacity c))%Z →
  validatePrerequisites reg s code = true →
  registerStudent MAX_COURSES now reg s code =
    mkRegistered (after_checks (enrollInCourse MAX_COURSES s code).1)
      {| courses := <[code := set_enrolledStudents c ({[studentId s]} ∪ enrolledStudents c)]>
                      (courses reg) |}
      (enrollInCourse MAX_COURSES s code).2.
Proof.
  intros Hc Hopen Hnew Hroom Hpre.
  rewrite (registerStudent_open now reg s code c) by done.
  rewrite bool_decide_eq_false_2 by done.
  assert ((Z.of_nat (size (enrolledStudents c)) >=? size_t_of_int (maxCapacity c))%Z = false)
    as -> by (rewrite Z.geb_leb; apply Z.leb_gt; lia).
  by rewrite Hpre.
Qed.

(** For every course limit, a student at the limit makes [registerStudent]
    throw after the checks have passed, with the student ID left in the
    course's set. *)
Lemma registerStudent_at_limit now reg s code c :
  courses reg !! code = Some c →
  (now ≤ registrationDeadline c)%Z →
  studentId s ∉ enrolledStudents c →
  (Z.of_nat (size (enrolledStudents c)) < size_t_of_int (maxCapacity c))%Z →
  validatePrerequisites reg s code = true →
  code ∉ enrolledCourses s →
  MAX_COURSES ≤ length (enrolledCourses s) →
  registerStudent MAX_COURSES now reg s code =
    mkRegistered (Throw runtime_error)
      {| courses := <[code := set_enrolledStudents c ({[studentId s]} ∪ enrolledStudents c)]>
                      (courses reg) |}
      s.
Proof.
  intros Hc Hopen Hnew Hroom Hpre Hfresh Hlimit.
  rewrite (registerStudent_checks_passed now reg s code c) by done.
  destruct (enrollInCourse_cases s code)
    as [(Hin & _) | [(_ & _ & ->) | (_ & Hlt & _)]]; [done | done | lia].
Qed.

(** C1 (amended). In a ledger the program can reach, [registerStudent]
    throws [std::invalid_argument] for a course code that is not in the
    catalog; otherwise it answers with the first check that matches, in the
    order deadline, already enrolled, capacity, prerequisites:
    REGISTRATION_CLOSED if the time is past the deadline (also for a student
    who is enrolled in a full course), else ALREADY_ENROLLED if the student
    ID is in the course's set, else COURSE_FULL if the set has at least
    [maxCapacity] members, else PREREQ_NOT_MET if a prerequisite is missing
    from the student's list; and when no check matches it returns SUCCESS
    if the student's [enrollInCourse] returns, and lets the exception
    through if [enrollInCourse] throws. *)
Theorem registerStudent_first_matching_status w s code now :
  reachable MAX_COURSES w →
  let reg := registration w in
  let r := status (registerStudent MAX_COURSES now reg s code) in
  (courses reg !! code = None → r = Throw invalid_argument)
  ∧ (∀ c, courses reg !! code = Some c →
       ((now > registrationDeadline c)%Z → r = Return REGISTRATION_CLOSED)
       ∧ ((now > registrationDeadline c)%Z → studentId s ∈ enrolledStudents c →
          (maxCapacity c ≤ Z.of_nat (size (enrolledStudents c)))%Z →
          r = Return REGISTRATION_CLOSED)
       ∧ ((now ≤ registrationDeadline c)%Z → studentId s ∈ enrolledStudents c →
          r = Return ALREADY_ENROLLED)
       ∧ ((now ≤ registrationDeadline c)%Z → studentId s ∉ enrolledStudents c →
          (maxCapacity c ≤ Z.of_nat (size (enrolledStudents c)))%Z →
          r = Return COURSE_FULL)
       ∧ ((now ≤ registrationDeadline c)%Z → studentId s ∉ enrolledStudents c →
          (Z.of_nat (size (enrolledStudents c)) < maxCapacity c)%Z →
          ¬ prerequisites_enrolled c s →
          r = Return PREREQ_NOT_MET)
       ∧ ((now ≤ registrationDeadline c)%Z → studentId s ∉ enrolledStudents c →
          (Z.of_nat (size (enrolledStudents c)) < maxCapacity c)%Z →
          prerequisites_enrolled c s →
          (∀ b, (enrollInCourse MAX_COURSES s code).1 = Return b → r = Return SUCCESS)
          ∧ (∀ e, (enrollInCourse MAX_COURSES s code).1 = Throw e → r = Throw e))).
Proof.
  intros Hreach reg r. subst r. split.
  { intros Hc. by rewrite registerStudent_unknown. }
  intros c Hc.
  pose proof (reachable_capacity w code c Hreach Hc) as [Hsize Hint].
  assert (size_t_of_int (maxCapacity c) = maxCapacity c) as Hconv
    by (apply size_t_of_int_id; lia).
  split; [| split].
  { intros Hlate. by rewrite (registerStudent_closed now reg s code c). }
  { intros Hlate _ _. by rewrite (registerStudent_closed now reg s code c). }
  split; [| split; [| split]].
  - intros Hopen Hin. rewrite (registerStudent_open now reg s code c) by done.
    by rewrite bool_decide_eq_true_2.
  - intros Hopen Hnew Hfull. rewrite (registerStudent_open now reg s code c) by done.
    rewrite bool_decide_eq_false_2 by done. rewrite Hconv.
    assert ((Z.of_nat (size (enrolledStudents c)) >=? maxCapacity c)%Z = true) as ->
      by (rewrite Z.geb_leb; apply Z.leb_le; lia).
    done.
  - intros Hopen Hnew Hroom Hmissing.
    rewrite (registerStudent_open now reg s code c) by done.
    rewrite bool_decide_eq_false_2 by done. rewrite Hconv.
    assert ((Z.of_nat (size (enrolledStudents c)) >=? maxCapacity c)%Z = false) as ->
      by (rewrite Z.geb_leb; apply Z.leb_gt; lia).
    destruct (validatePrerequisites reg s code) eqn:Hpre; [| done].
    exfalso. apply Hmissing. by apply (validatePrerequisites_known reg s code c).
  - intros Hopen Hnew Hroom Hpre.
    apply (validatePrerequisites_known reg s code c Hc) in Hpre.
    rewrite (registerStudent_checks_passed now reg s code c) by (done || lia).
    cbn [status]. split.
    + intros b ->. done.
    + intros e ->. done.
Qed.

(** C8. [registerStudent] never returns TIME_CONFLICT: whatever the ledger,
    the student, the course code and the time, it either throws or returns
    one of SUCCESS, COURSE_FULL, PREREQ_NOT_MET, ALREADY_ENROLLED and
    REGISTRATION_CLOSED. *)
Theorem registerStudent_never_time_conflict now reg s code :
  let r := status (registerStudent MAX_COURSES now reg s code) in
  r ≠ Return TIME_CONFLICT
  ∧ ((∃ e, r = Throw e)
     ∨ r = Return SUCCESS ∨ r = Return COURSE_FULL ∨ r = Return PREREQ_NOT_MET
     ∨ r = Return ALREADY_ENROLLED ∨ r = Return REGISTRATION_CLOSED).
Proof.
  cbv zeta.
  assert ((∃ e, status (registerStudent MAX_COURSES now reg s code) = Throw e)
     ∨ status (registerStudent MAX_COURSES now reg s code) = Return SUCCESS
     ∨ status (registerStudent MAX_COURSES now reg s code) = Return COURSE_FULL
     ∨ status (registerStudent MAX_COURSES now reg s code) = Return PREREQ_NOT_MET
     ∨ status (registerStudent MAX_COURSES now reg s code) = Return ALREADY_ENROLLED
     ∨ status (registerStudent MAX_COURSES now reg s code) = Return REGISTRATION_CLOSED)
    as Hcases.
  { destruct (courses reg !! code) as [c|] eqn:Hc.
    2: { left. exists invalid_argument. by rewrite registerStudent_unknown. }
    destruct (Z.lt_ge_cases (registrationDeadline c) now) as [Hlate | Hopen].
    { rewrite (registerStudent_closed now reg s code c); [| done | lia].
      do 5 right. done. }
    rewrite (registerStudent_open now reg s code c) by done.
    case_bool_decide; [do 4 right; by left |].
    destruct (_ >=? _)%Z; [do 2 right; by left |].
    destruct (negb _); [do 3 right; by left |].
    cbn [status]. destruct (enrollInCourse MAX_COURSES s code).1 as [b | e]; simpl.
    - right. by left.
    - left. by exists e. }
  split; [| exact Hcases].
  destruct Hcases as [[e ->] | [-> | [-> | [-> | [-> | ->]]]]]; discriminate.
Qed.

(** C9. When the deadline, enrollment, capacity and prerequisite checks
    pass and the student's [enrollInCourse] returns false, [registerStudent]
    still puts the student ID into the course's set and returns SUCCESS; the
    student's list of courses stays as it was. *)
Theorem registerStudent_ignores_enroll_result now reg s code c :
  courses reg !! code = Some c →
  (now ≤ registrationDeadline c)%Z →
  studentId s ∉ enrolledStudents c →
  (Z.of_nat (size (enrolledStudents c)) < size_t_of_int (maxCapacity c))%Z →
  validatePrerequisites reg s code = true →
  (enrollInCourse MAX_COURSES s code).1 = Return false →
  let r := registerStudent MAX_COURSES now reg s code in
  status r = Return SUCCESS
  ∧ (∃ c', courses (reg_after r) !! code = Some c'
           ∧ enrolledStudents c' = {[studentId s]} ∪ enrolledStudents c
           ∧ studentId s ∈ enrolledStudents c')
  ∧ code ∈ enrolledCourses s
  ∧ enrolledCourses (student_after r) = enrolledCourses s.
Proof.
  intros Hc Hopen Hnew Hroom Hpre Hfalse r. subst r.
  rewrite (registerStudent_checks_passed now reg s code c) by done.
  rewrite Hfalse. cbn [status reg_after student_after after_checks courses].
  split; [done |]. split.
  - eexists. rewrite lookup_insert_eq. split; [done |].
    cbn [set_enrolledStudents enrolledStudents]. split; [done | set_solver].
  - destruct (enrollInCourse_cases s code)
      as [(Hin & Heq) | [(_ & _ & Heq) | (_ & _ & Heq)]];
      rewrite Heq in Hfalse |- *; simpl in *; done.
Qed.

(** *** registerStudent: what it writes *)

(** A call that returns a status other than SUCCESS, or that throws for an
    unknown course, writes nothing. *)
Lemma registerStudent_rejection_unchanged now reg s code st :
  status (registerStudent MAX_COURSES now reg s code) = Return st →
  st ≠ SUCCESS →
  reg_after (registerStudent MAX_COURSES now reg s code) = reg
  ∧ student_after (registerStudent MAX_COURSES now reg s code) = s.
Proof.
  destruct (courses reg !! code) as [c|] eqn:Hc.
  2: { by rewrite registerStudent_unknown. }
  destruct (Z.lt_ge_cases (registrationDeadline c) now) as [Hlate | Hopen].
  { rewrite (registerStudent_closed now reg s code c); [done | done | lia]. }
  rewrite (registerStudent_open now reg s code c) by done.
  case_bool_decide; [done |].
  destruct (_ >=? _)%Z; [done |].
  destruct (negb _); [done |].
  cbn [status reg_after student_after].
  destruct (enrollInCourse MAX_COURSES s code).1; simpl; [| done].
  intros [= <-] Hne. done.
Qed.

Lemma registerStudent_unknown_unchanged now reg s code :
  courses reg !! code = None →
  status (registerStudent MAX_COURSES now reg s code) = Throw invalid_argument
  ∧ reg_after (registerStudent MAX_COURSES now reg s code) = reg
  ∧ student_after (registerStudent MAX_COURSES now reg s code) = s.
Proof. intros Hc. by rewrite registerStudent_unknown. Qed.

(** A call that returns SUCCESS has put the student ID into the course's
    set and has called the student's [enrollInCourse]. *)
Lemma registerStudent_success_effects now reg s code :
  status (registerStudent MAX_COURSES now reg s code) = Return SUCCESS →
  ∃ c, courses reg !! code = Some c
     ∧ courses (reg_after (registerStudent MAX_COURSES now reg s code)) !! code =
         Some (set_enrolledStudents c ({[studentId s]} ∪ enrolledStudents c))
     ∧ (∀ other, other ≠ code →
          courses (reg_after (registerStudent MAX_COURSES now reg s code)) !! other =
            courses reg !! other)
     ∧ student_after (registerStudent MAX_COURSES now reg s code) =
         (enrollInCourse MAX_COURSES s code).2.
Proof.
  destruct (courses reg !! code) as [c|] eqn:Hc.
  2: { by rewrite registerStudent_unknown. }
  destruct (Z.lt_ge_cases (registrationDeadline c) now) as [Hlate | Hopen].
  { rewrite (registerStudent_closed now reg s code c); [done | done | lia]. }
  rewrite (registerStudent_open now reg s code c) by done.
  case_bool_decide; [done |].
  destruct (_ >=? _)%Z; [done |].
  destruct (negb _); [done |].
  cbn [status reg_after student_after courses]. intros _.
  exists c. split; [done |]. split; [by rewrite lookup_insert_eq |].
  split; [| done]. intros other Hne. by rewrite lookup_insert_ne.
Qed.

(** *** withdrawStudent *)

Lemma withdrawStudent_absent reg sid code c :
  courses reg !! code = Some c → sid ∉ enrolledStudents c →
  withdrawStudent reg sid code = (false, reg).
Proof.
  intros Hc Hnotin. rewrite (withdrawStudent_known _ _ _ _ Hc).
  rewrite bool_decide_eq_false_2 by done. f_equal.
  assert (enrolledStudents c ∖ {[sid]} = enrolledStudents c) as ->
    by (apply difference_disjoint_L; set_solver).
  assert (set_enrolledStudents c (enrolledStudents c) = c) as -> by (by destruct c).
  rewrite insert_id by done. by destruct reg.
Qed.

(** C5. In a ledger the program can reach, [withdrawStudent] returns false
    and changes nothing for a course code that is not in the catalog;
    otherwise it takes the student ID out of that course's set, leaves the
    other courses alone, and returns true exactly when the ID was in the
    set, in which case [getEnrollmentCount] of the course goes down by
    exactly one. No [Student] object of the caller is written. *)
Theorem withdrawStudent_spec w sid code :
  reachable MAX_COURSES w →
  let reg := registration w in
  let r := withdrawStudent reg sid code in
  (courses reg !! code = None → r = (false, reg))
  ∧ (∀ c, courses reg !! code = Some c →
       (r.1 = true ↔ sid ∈ enrolledStudents c)
       ∧ courses r.2 !! code =
           Some (set_enrolledStudents c (enrolledStudents c ∖ {[sid]}))
       ∧ (∀ other, other ≠ code → courses r.2 !! other = courses reg !! other)
       ∧ (sid ∈ enrolledStudents c →
            ∃ n, getEnrollmentCount reg code = Return n
               ∧ getEnrollmentCount r.2 code = Return (n - 1)%Z)
       ∧ (sid ∉ enrolledStudents c → r.2 = reg))
  ∧ registration (exec MAX_COURSES w (CallWithdrawStudent sid code)) = r.2
  ∧ students (exec MAX_COURSES w (CallWithdrawStudent sid code)) = students w.
Proof.
  intros Hreach reg r. subst r. split; [| split; [| done]].
  { apply withdrawStudent_unknown. }
  intros c Hc. rewrite (withdrawStudent_known _ _ _ _ Hc). cbn [fst snd courses].
  pose proof (reachable_capacity w code c Hreach Hc) as [Hsize Hint].
  split; [| split; [| split; [| split]]].
  - apply bool_decide_eq_true.
  - by rewrite lookup_insert_eq.
  - intros other Hne. by rewrite lookup_insert_ne.
  - intros Hin. exists (Z.of_nat (size (enrolledStudents c))).
    unfold getEnrollmentCount. cbn [courses]. fold reg. rewrite Hc, lookup_insert_eq.
    cbn [set_enrolledStudents enrolledStudents].
    pose proof (size_erase_present sid (enrolledStudents c) Hin) as Hdec.
    rewrite !int_of_size_t_id by lia.
    split; [done |]. f_equal. lia.
  - intros Hnotin.
    pose proof (withdrawStudent_absent reg sid code c Hc Hnotin) as Heq.
    rewrite (withdrawStudent_known _ _ _ _ Hc) in Heq. by injection Heq.
Qed.

(** *** getAcademicStanding *)

Lemma float_lt_not_ge x y : float_lt x y = true → float_ge x y = false.
Proof.
  unfold float_lt, float_ge, SFltb, SFleb.
  destruct x as [sx | sx | | sx mx ex], y as [sy | sy | | sy my ey];
    simpl; try done;
    try (destruct sx; done); try (destruct sy; done);
    try (destruct sx, sy; done).
  destruct sx, sy; try done.
  - rewrite (Z.compare_antisym ex ey).
    destruct (ex ?= ey)%Z; simpl; try done.
    change (Pos.compare_cont Eq ?a ?b) with (a ?= b)%positive.
    rewrite (Pos.compare_antisym mx my).
    destruct (mx ?= my)%positive; done.
  - rewrite (Z.compare_antisym ex ey).
    destruct (ex ?= ey)%Z; simpl; try done.
    change (Pos.compare_cont Eq ?a ?b) with (a ?= b)%positive.
    rewrite (Pos.compare_antisym mx my).
    destruct (mx ?= my)%positive; done.
Qed.

(** Below a positive finite value is below every larger one. *)
Lemma float_lt_finite_trans x m1 e1 m2 e2 :
  (e1 < e2)%Z ∨ (e1 = e2 ∧ (m1 < m2)%positive) →
  float_lt x (S754_finite false m1 e1) = true →
  float_lt x (S754_finite false m2 e2) = true.
Proof.
  intros Horder. unfold float_lt, SFltb.
  destruct x as [sx | sx | | sx mx ex]; cbn [SFcompare]; try (intros; assumption).
  destruct sx; [intros; assumption |].
  destruct (Z.compare_spec ex e1) as [-> | Hlt | Hgt]; try discriminate.
  - destruct (PosDef.Pos.compare_cont Eq mx m1) eqn:Hcmp; try discriminate.
    intros _. destruct Horder as [He | [<- Hm]].
    + apply Z.compare_lt_iff in He. by rewrite He.
    + rewrite Z.compare_refl.
      assert (mx < m2)%positive as Hlt by (by apply (Pos.lt_trans _ m1)).
      unfold Pos.lt, Pos.compare in Hlt. by rewrite Hlt.
  - intros _. assert (ex < e2)%Z as Hlt' by lia.
    apply Z.compare_lt_iff in Hlt'. by rewrite Hlt'.
Qed.

Lemma float_lt_5_lt_7 x : float_lt x float_5_0 = true → float_lt x float_7_0 = true.
Proof.
  apply (float_lt_finite_trans x 10485760 (-21) 14680064 (-21)).
  right. split; reflexivity.
Qed.

Lemma float_lt_7_lt_9 x : float_lt x float_7_0 = true → float_lt x float_9_0 = true.
Proof.
  apply (float_lt_finite_trans x 14680064 (-21) 9437184 (-20)).
  left. reflexivity.
Qed.

(** C6. [getAcademicStanding] depends on the CGPA alone and classifies it:
    EXCELLENT from 9.0 up, GOOD from 7.0 up to but not including 9.0,
    SATISFACTORY from 5.0 up to but not including 7.0, PROBATION below 5.0;
    the values 9.0, 7.0 and 5.0 themselves fall in the higher tier. It
    returns a standing and nothing else: the student is not written. *)
Theorem getAcademicStanding_tiers s :
  (float_ge (cgpa s) float_9_0 = true → getAcademicStanding s = EXCELLENT)
  ∧ (float_ge (cgpa s) float_7_0 = true → float_lt (cgpa s) float_9_0 = true →
     getAcademicStanding s = GOOD)
  ∧ (float_ge (cgpa s) float_5_0 = true → float_lt (cgpa s) float_7_0 = true →
     getAcademicStanding s = SATISFACTORY)
  ∧ (float_lt (cgpa s) float_5_0 = true → getAcademicStanding s = PROBATION)
  ∧ (cgpa s = float_9_0 → getAcademicStanding s = EXCELLENT)
  ∧ (cgpa s = float_7_0 → getAcademicStanding s = GOOD)
  ∧ (cgpa s = float_5_0 → getAcademicStanding s = SATISFACTORY)
  ∧ (∀ s', cgpa s' = cgpa s → getAcademicStanding s' = getAcademicStanding s).
Proof.
  unfold getAcademicStanding. repeat split.
  - by intros ->.
  - intros H7 H9. by rewrite (float_lt_not_ge _ _ H9), H7.
  - intros H5 H7.
    rewrite (float_lt_not_ge _ _ (float_lt_7_lt_9 _ H7)).
    by rewrite (float_lt_not_ge _ _ H7), H5.
  - intros H5.
    rewrite (float_lt_not_ge _ _ (float_lt_7_lt_9 _ (float_lt_5_lt_7 _ H5))).
    rewrite (float_lt_not_ge _ _ (float_lt_5_lt_7 _ H5)).
    by rewrite (float_lt_not_ge _ _ H5).
  - by intros ->.
  - by intros ->.
  - by intros ->.
  - by intros s' ->.
Qed.

End Properties.

(** ** The properties at work *)

Lemma seminar_world_reachable : reachable 6 seminar_world.
Proof.
  exists seminar_calls. split; [| reflexivity].
  repeat (apply Forall_cons; split;
          [simpl; unfold INT_MIN, INT_MAX; first [exact I | lia] |]).
  apply Forall_nil. done.
Defined.

Lemma withdrawn_world_reachable : reachable 6 withdrawn_world.
Proof.
  exists withdrawn_calls. split; [| reflexivity].
  repeat (apply Forall_cons; split;
          [simpl; unfold INT_MIN, INT_MAX; first [exact I | lia] |]).
  apply Forall_nil. done.
Defined.

Lemma ledger_seminar_lookup : courses ledger_seminar !! "SE301" = Some seminar_taken.
Proof. vm_compute. reflexivity. Qed.

Lemma ledger_cs201_lookup : courses ledger_cs201 !! "CS201" = Some cs201.
Proof. vm_compute. reflexivity. Qed.

(** The deadline comes first: Alice, who holds the only seat of the
    seminar, is told REGISTRATION_CLOSED after the deadline and
    ALREADY_ENROLLED before it; Bob is told COURSE_FULL. *)
Lemma registerStudent_first_matching_status_witness :
  status (registerStudent 6 200 (registration seminar_world) alice "SE301")
    = Return REGISTRATION_CLOSED
  ∧ status (registerStudent 6 50 (registration seminar_world) alice "SE301")
    = Return ALREADY_ENROLLED
  ∧ status (registerStudent 6 50 (registration seminar_world) bob "SE301")
    = Return COURSE_FULL
  ∧ status (registerStudent 6 50 (registration seminar_world) bob "XX000")
    = Throw invalid_argument.
Proof.
  split; [| split; [| split]].
  - destruct (registerStudent_first_matching_status 6 seminar_world alice "SE301" 200
                seminar_world_reachable) as [_ Hknown].
    destruct (Hknown seminar_taken ledger_seminar_lookup) as (_ & Hclosed & _).
    apply Hclosed.
    + simpl. lia.
    + vm_compute. reflexivity.
    + vm_compute. discriminate.
  - destruct (registerStudent_first_matching_status 6 seminar_world alice "SE301" 50
                seminar_world_reachable) as [_ Hknown].
    destruct (Hknown seminar_taken ledger_seminar_lookup) as (_ & _ & Henrolled & _).
    apply Henrolled.
    + simpl. lia.
    + vm_compute. reflexivity.
  - destruct (registerStudent_first_matching_status 6 seminar_world bob "SE301" 50
                seminar_world_reachable) as [_ Hknown].
    destruct (Hknown seminar_taken ledger_seminar_lookup) as (_ & _ & _ & Hfull & _).
    apply Hfull.
    + simpl. lia.
    + vm_compute. discriminate.
    + vm_compute. discriminate.
  - destruct (registerStudent_first_matching_status 6 seminar_world bob "XX000" 50
                seminar_world_reachable) as [Hunknown _].
    apply Hunknown. vm_compute. reflexivity.
Defined.

(** With a course limit of six, Carol, who has six courses, registers for
    CS201 in time, is not enrolled in it, finds a free seat and has no
    prerequisite to meet: no check matches, and still the call does not
    return SUCCESS, it throws [std::runtime_error]. *)
Lemma registerStudent_at_limit_not_success :
  reachable 6 (run 6 [add_cs201] initial_world)
  ∧ courses ledger_cs201 !! "CS201" = Some cs201
  ∧ ¬ (50 > registrationDeadline cs201)%Z
  ∧ (studentId carol ∉ enrolledStudents cs201)
  ∧ ¬ (maxCapacity cs201 ≤ Z.of_nat (size (enrolledStudents cs201)))%Z
  ∧ prerequisites_enrolled cs201 carol
  ∧ status (registerStudent 6 50 ledger_cs201 carol "CS201") = Throw runtime_error
  ∧ status (registerStudent 6 50 ledger_cs201 carol "CS201") ≠ Return SUCCESS.
Proof.
  split.
  { exists [add_cs201]. split; [| reflexivity].
    apply Forall_cons. split; [| by apply Forall_nil].
    simpl. unfold INT_MIN, INT_MAX. lia. }
  split; [apply ledger_cs201_lookup |].
  split; [simpl; lia |].
  split; [simpl; set_solver |].
  split; [vm_compute; intros H; apply H; reflexivity |].
  split; [intros p Hp; simpl in Hp; set_solver |].
  assert (status (registerStudent 6 50 ledger_cs201 carol "CS201") = Throw runtime_error)
    as Hthrow by (vm_compute; reflexivity).
  split; [exact Hthrow |]. rewrite Hthrow. discriminate.
Qed.

(** C2, at the input where the code departs from it. With a course limit
    of six, [registerStudent] for Carol and CS201 throws
    [std::runtime_error], so it does not return SUCCESS, and yet it has
    written the ledger: Carol's ID is in the set of CS201. Her own list is
    as it was. *)
Theorem registerStudent_writes_without_success :
  let r := registerStudent 6 50 ledger_cs201 carol "CS201" in
  status r = Throw runtime_error
  ∧ courses ledger_cs201 !! "CS201" = Some cs201
  ∧ courses (reg_after r) !! "CS201" = Some cs201_with_carol
  ∧ (studentId carol ∉ enrolledStudents cs201)
  ∧ studentId carol ∈ enrolledStudents cs201_with_carol
  ∧ reg_after r ≠ ledger_cs201
  ∧ student_after r = carol.
Proof.
  cbv zeta.
  assert (courses (reg_after (registerStudent 6 50 ledger_cs201 carol "CS201")) !! "CS201"
          = Some cs201_with_carol) as Hafter by (vm_compute; reflexivity).
  split; [vm_compute; reflexivity |].
  split; [apply ledger_cs201_lookup |].
  split; [exact Hafter |].
  split; [simpl; set_solver |].
  split; [simpl; set_solver |].
  split; [| vm_compute; reflexivity].
  intros Heq. rewrite Heq, ledger_cs201_lookup in Hafter.
  assert (enrolledStudents cs201 = enrolledStudents cs201_with_carol) as Hsets
    by congruence.
  cbn [enrolledStudents cs201 cs201_with_carol set_enrolledStudents] in Hsets.
  set_solver.
Qed.

Lemma capacity_invariant_witness :
  (Z.of_nat (size (enrolledStudents seminar_taken)) ≤ maxCapacity seminar_taken)%Z
  ∧ within_capacity (registration (exec 6 initial_world add_cs201)).
Proof.
  destruct (capacity_invariant 6) as (Hinit & Hstep & Hrun). split.
  - apply (Hrun seminar_calls "SE301"). exact ledger_seminar_lookup.
  - apply Hstep. exact Hinit.
Defined.

Lemma validatePrerequisites_iff_witness :
  validatePrerequisites ledger_cs201 alice "CS201" = true
  ∧ validatePrerequisites ledger_cs201 alice "XX000" = false.
Proof.
  split.
  - apply (validatePrerequisites_iff ledger_cs201 alice "CS201").
    exists cs201. split; [exact ledger_cs201_lookup |].
    intros p Hp. simpl in Hp. set_solver.
  - apply (validatePrerequisites_iff ledger_cs201 alice "XX000").
    vm_compute. reflexivity.
Defined.

Lemma withdrawStudent_spec_witness :
  (withdrawStudent (registration seminar_world) "S1" "SE301").1 = true
  ∧ (∃ n, getEnrollmentCount (registration seminar_world) "SE301" = Return n
        ∧ getEnrollmentCount
            (withdrawStudent (registration seminar_world) "S1" "SE301").2 "SE301"
          = Return (n - 1)%Z)
  ∧ withdrawStudent (registration seminar_world) "S1" "XX000"
    = (false, registration seminar_world)
  ∧ students (exec 6 seminar_world (CallWithdrawStudent "S1" "SE301"))
    = students seminar_world.
Proof.
  destruct (withdrawStudent_spec 6 seminar_world "S1" "SE301" seminar_world_reachable)
    as (_ & Hknown & _ & Hframe).
  destruct (Hknown seminar_taken ledger_seminar_lookup) as (Hiff & _ & _ & Hcount & _).
  assert (("S1" : string) ∈ enrolledStudents seminar_taken) as Hin by (simpl; set_solver).
  split; [by apply Hiff |].
  split; [by apply Hcount |].
  split; [| exact Hframe].
  destruct (withdrawStudent_spec 6 seminar_world "S1" "XX000" seminar_world_reachable)
    as (Hunknown & _).
  apply Hunknown. vm_compute. reflexivity.
Defined.

Lemma addCourse_spec_witness :
  addCourse ledger_cs201 "CS201" "Again" 10 ∅ 0 = (Throw invalid_argument, ledger_cs201)
  ∧ addCourse ledger_cs201 "MA101" "Calculus" (-1) ∅ 0 = (Throw out_of_range, ledger_cs201)
  ∧ (addCourse ledger_cs201 "MA101" "Calculus" 10 ∅ 0).1 = Return tt.
Proof.
  destruct (addCourse_spec ledger_cs201 "CS201" "Again" 10 ∅ 0) as (Hdup & _).
  destruct (addCourse_spec ledger_cs201 "MA101" "Calculus" (-1) ∅ 0) as (_ & Hneg & _).
  destruct (addCourse_spec ledger_cs201 "MA101" "Calculus" 10 ∅ 0) as (_ & _ & Hnew).
  split; [| split].
  - apply Hdup. rewrite ledger_cs201_lookup. by eexists.
  - apply Hneg; [vm_compute; reflexivity | lia].
  - apply Hnew; [vm_compute; reflexivity | lia].
Defined.

Lemma addCourse_duplicate_before_capacity_witness :
  (addCourse ledger_cs201 "CS201" "Again" (-1) ∅ 0).1 = Throw invalid_argument
  ∧ (addCourse ledger_cs201 "CS201" "Again" (-1) ∅ 0).1 ≠ Throw out_of_range
  ∧ (addCourse ledger_cs201 "CS201" "Again" (-1) ∅ 0).2 = ledger_cs201.
Proof.
  apply addCourse_duplicate_before_capacity.
  - rewrite ledger_cs201_lookup. by eexists.
  - lia.
Defined.

(** After the withdrawal Alice still lists CS201, so her [enrollInCourse]
    returns false; registering her again returns SUCCESS all the same. *)
Lemma registerStudent_ignores_enroll_result_witness :
  students withdrawn_world !! 0 = Some alice_in_cs201
  ∧ status (registerStudent 6 60 (registration withdrawn_world) alice_in_cs201 "CS201")
    = Return SUCCESS
  ∧ enrolledCourses
      (student_after
         (registerStudent 6 60 (registration withdrawn_world) alice_in_cs201 "CS201"))
    = ["CS201"].
Proof.
  split; [vm_compute; reflexivity |].
  destruct (registerStudent_ignores_enroll_result 6 60 (registration withdrawn_world)
              alice_in_cs201 "CS201" cs201) as (Hstatus & _ & _ & Hlist).
  - vm_compute. reflexivity.
  - simpl. lia.
  - simpl. set_solver.
  - vm_compute. reflexivity.
  - vm_compute. reflexivity.
  - vm_compute. reflexivity.
  - split; [exact Hstatus | exact Hlist].
Defined.

Lemma getAcademicStanding_tiers_witness :
  getAcademicStanding (with_cgpa alice float_9_0) = EXCELLENT
  ∧ getAcademicStanding (with_cgpa alice float_8_0) = GOOD
  ∧ getAcademicStanding (with_cgpa alice float_7_0) = GOOD
  ∧ getAcademicStanding (with_cgpa alice float_6_0) = SATISFACTORY
  ∧ getAcademicStanding (with_cgpa alice float_5_0) = SATISFACTORY
  ∧ getAcademicStanding (with_cgpa alice float_4_0) = PROBATION.
Proof.
  split; [apply (getAcademicStanding_tiers (with_cgpa alice float_9_0)); reflexivity |].
  split; [apply (getAcademicStanding_tiers (with_cgpa alice float_8_0)); reflexivity |].
  split; [apply (getAcademicStanding_tiers (with_cgpa alice float_7_0)); reflexivity |].
  split; [apply (getAcademicStanding_tiers (with_cgpa alice float_6_0)); reflexivity |].
  split; [apply (getAcademicStanding_tiers (with_cgpa alice float_5_0)); reflexivity |].
  apply (getAcademicStanding_tiers (with_cgpa alice float_4_0)); reflexivity.
Defined.

(** ** Further properties of the ledger *)

Section Ledger.

Variable MAX_COURSES : nat.

(** A call of [registerStudent] either writes nothing, and then it neither
    returns SUCCESS nor lets [std::runtime_error] through, or it has passed
    its four checks and put the student ID into the course's set. *)
Lemma registerStudent_dichotomy now reg s code :
  (reg_after (registerStudent MAX_COURSES now reg s code) = reg
   ∧ student_after (registerStudent MAX_COURSES now reg s code) = s
   ∧ status (registerStudent MAX_COURSES now reg s code) ≠ Return SUCCESS
   ∧ status (registerStudent MAX_COURSES now reg s code) ≠ Throw runtime_error)
  ∨ (∃ c, courses reg !! code = Some c
        ∧ (now ≤ registrationDeadline c)%Z
        ∧ (studentId s ∉ enrolledStudents c)
        ∧ (Z.of_nat (size (enrolledStudents c)) < size_t_of_int (maxCapacity c))%Z
        ∧ validatePrerequisites reg s code = true
        ∧ (status (registerStudent MAX_COURSES now reg s code) = Return SUCCESS
           ∨ status (registerStudent MAX_COURSES now reg s code) = Throw runtime_error)
        ∧ reg_after (registerStudent MAX_COURSES now reg s code) =
            {| courses :=
                 <[code := set_enrolledStudents c ({[studentId s]} ∪ enrolledStudents c)]>
                   (courses reg) |}).
Proof.
  destruct (courses reg !! code) as [c|] eqn:Hc.
  2: { left. rewrite registerStudent_unknown by done. by repeat split. }
  destruct (Z.lt_ge_cases (registrationDeadline c) now) as [Hlate | Hopen].
  { left. rewrite (registerStudent_closed MAX_COURSES now reg s code c); [| done | lia].
    by repeat split. }
  rewrite (registerStudent_open MAX_COURSES now reg s code c) by done.
  case_bool_decide as Hin; [left; by repeat split |].
  destruct (_ >=? _)%Z eqn:Hfull; [left; by repeat split |].
  destruct (validatePrerequisites reg s code) eqn:Hpre; cbn [negb];
    [| left; by repeat split].
  right. exists c. cbn [status reg_after].
  rewrite Z.geb_leb in Hfull. apply Z.leb_gt in Hfull.
  repeat (split; [done |]). split; [| done].
  destruct (enrollInCourse_cases MAX_COURSES s code)
    as [(_ & ->) | [(_ & _ & ->) | (_ & _ & ->)]]; cbn [fst after_checks]; auto.
Qed.

Lemma isCourseFull_known reg code c :
  courses reg !! code = Some c →
  isCourseFull reg code =
    Return (Z.of_nat (size (enrolledStudents c)) >=? size_t_of_int (maxCapacity c))%Z.
Proof. intros Hc. unfold isCourseFull. by rewrite Hc. Qed.

Lemma getEnrollmentCount_known reg code c :
  courses reg !! code = Some c →
  getEnrollmentCount reg code =
    Return (int_of_size_t (Z.of_nat (size (enrolledStudents c)))).
Proof. intros Hc. unfold getEnrollmentCount. by rewrite Hc. Qed.

(** X1. In a ledger the program can reach, [getEnrollmentCount] throws
    [std::out_of_range] exactly for a course code that is not in the
    catalog, and for a course of the catalog it returns the number of
    enrolled students as it is (the conversion to [int] loses nothing),
    a number between 0 and the course's [maxCapacity]. *)
Theorem getEnrollmentCount_exact w code :
  reachable MAX_COURSES w →
  (getEnrollmentCount (registration w) code = Throw out_of_range
     ↔ courses (registration w) !! code = None)
  ∧ (∀ c, courses (registration w) !! code = Some c →
       getEnrollmentCount (registration w) code =
         Return (Z.of_nat (size (enrolledStudents c)))
       ∧ (0 ≤ Z.of_nat (size (enrolledStudents c)) ≤ maxCapacity c)%Z).
Proof.
  intros Hreach. split.
  - unfold getEnrollmentCount.
    destruct (courses (registration w) !! code); split; done.
  - intros c Hc.
    pose proof (reachable_capacity MAX_COURSES w code c Hreach Hc) as [Hsize Hint].
    rewrite (getEnrollmentCount_known _ _ _ Hc).
    rewrite int_of_size_t_id by lia. split; [done | lia].
Qed.

(** X2. In a ledger the program can reach, [isCourseFull] throws
    [std::out_of_range] exactly for a course code that is not in the
    catalog; for a course of the catalog it returns true exactly when the
    number of enrolled students equals [maxCapacity], and false exactly when
    it is smaller. *)
Theorem isCourseFull_iff w code :
  reachable MAX_COURSES w →
  (isCourseFull (registration w) code = Throw out_of_range
     ↔ courses (registration w) !! code = None)
  ∧ (∀ c, courses (registration w) !! code = Some c →
       (isCourseFull (registration w) code = Return true
          ↔ Z.of_nat (size (enrolledStudents c)) = maxCapacity c)
       ∧ (isCourseFull (registration w) code = Return false
          ↔ (Z.of_nat (size (enrolledStudents c)) < maxCapacity c)%Z)).
Proof.
  intros Hreach. split.
  - unfold isCourseFull.
    destruct (courses (registration w) !! code); split; done.
  - intros c Hc.
    pose proof (reachable_capacity MAX_COURSES w code c Hreach Hc) as [Hsize Hint].
    rewrite (isCourseFull_known _ _ _ Hc).
    rewrite size_t_of_int_id by lia. rewrite Z.geb_leb.
    destruct (Z.leb_spec (maxCapacity c) (Z.of_nat (size (enrolledStudents c))));
      split; split; intros H'; (done || lia || (injection H'; done) || idtac).
Qed.

(** X3. [registerStudent] and [isCourseFull] agree, in every ledger: a call
    that returns COURSE_FULL is for a course that [isCourseFull] reports
    full, and when [isCourseFull] reports a course full, [registerStudent]
    for it writes nothing, neither the ledger nor the student, and returns
    REGISTRATION_CLOSED, ALREADY_ENROLLED or COURSE_FULL. *)
Theorem registerStudent_respects_isCourseFull now reg s code :
  (status (registerStudent MAX_COURSES now reg s code) = Return COURSE_FULL →
   isCourseFull reg code = Return true)
  ∧ (isCourseFull reg code = Return true →
     reg_after (registerStudent MAX_COURSES now reg s code) = reg
     ∧ student_after (registerStudent MAX_COURSES now reg s code) = s
     ∧ (status (registerStudent MAX_COURSES now reg s code) = Return REGISTRATION_CLOSED
        ∨ status (registerStudent MAX_COURSES now reg s code) = Return ALREADY_ENROLLED
        ∨ status (registerStudent MAX_COURSES now reg s code) = Return COURSE_FULL)).
Proof.
  destruct (courses reg !! code) as [c|] eqn:Hc.
  2: { rewrite registerStudent_unknown by done. unfold isCourseFull. rewrite Hc.
       split; intros; done. }
  rewrite (isCourseFull_known _ _ _ Hc).
  destruct (Z.lt_ge_cases (registrationDeadline c) now) as [Hlate | Hopen].
  { rewrite (registerStudent_closed MAX_COURSES now reg s code c); [| done | lia].
    split; [done |]. intros _. cbn [status reg_after student_after]. auto. }
  rewrite (registerStudent_open MAX_COURSES now reg s code c) by done.
  case_bool_decide as Hin.
  { split; [done |]. intros _. cbn [status reg_after student_after]. auto. }
  destruct (_ >=? _)%Z eqn:Hfull.
  { split; [done |]. intros _. cbn [status reg_after student_after]. auto 6. }
  split; [| done].
  destruct (negb _); cbn [status]; [done |].
  destruct (enrollInCourse MAX_COURSES s code).1; done.
Qed.

(** X4. A course that [addCourse] has just stored (new code, capacity a
    non-negative [int]) has no student: [getEnrollmentCount] returns 0,
    [isCourseFull] returns true exactly when the capacity is 0,
    [withdrawStudent] returns false for every student and changes nothing,
    and a second [addCourse] with the same code, whatever its other
    arguments, throws [std::invalid_argument] and changes nothing. *)
Theorem addCourse_then reg code cname capacity prereqs deadline :
  courses reg !! code = None →
  (0 ≤ capacity ≤ INT_MAX)%Z →
  let reg' := (addCourse reg code cname capacity prereqs deadline).2 in
  getEnrollmentCount reg' code = Return 0%Z
  ∧ isCourseFull reg' code = Return (capacity =? 0)%Z
  ∧ (∀ sid, withdrawStudent reg' sid code = (false, reg'))
  ∧ (∀ cname2 capacity2 prereqs2 deadline2,
       addCourse reg' code cname2 capacity2 prereqs2 deadline2
         = (Throw invalid_argument, reg')).
Proof.
  intros Hnew Hcap reg'. subst reg'.
  rewrite addCourse_fresh by (done || lia). cbn [snd].
  set (info := mkCourseInfo cname capacity prereqs ∅ deadline).
  set (reg' := {| courses := <[code := info]> (courses reg) |}).
  assert (courses reg' !! code = Some info) as Hc by apply lookup_insert_eq.
  split; [| split; [| split]].
  - rewrite (getEnrollmentCount_known _ _ _ Hc). cbn [info enrolledStudents].
    by rewrite size_empty.
  - rewrite (isCourseFull_known _ _ _ Hc). cbn [info enrolledStudents maxCapacity].
    rewrite size_empty, size_t_of_int_id by done. f_equal.
    rewrite Z.geb_leb. destruct (Z.eqb_spec capacity 0) as [-> | Hne]; [done |].
    apply Z.leb_gt. lia.
  - intros sid. apply (withdrawStudent_absent reg' sid code info Hc).
    cbn [info enrolledStudents]. set_solver.
  - intros cname2 capacity2 prereqs2 deadline2.
    apply addCourse_duplicate. rewrite Hc. by eexists.
Qed.

(** X5. In a ledger the program can reach, the capacity of every course is
    a non-negative [int]: [addCourse] is the only writer of [maxCapacity]
    and refuses a negative one. *)
Theorem capacity_never_negative w code c :
  reachable MAX_COURSES w →
  courses (registration w) !! code = Some c →
  (0 ≤ maxCapacity c ≤ INT_MAX)%Z.
Proof.
  intros (calls & Hty & ->) Hc.
  pose proof (run_within_capacity MAX_COURSES calls initial_world
                empty_within_capacity code c Hc) as Hsize.
  pose proof (run_capacity_is_int MAX_COURSES calls initial_world Hty
                empty_capacity_is_int code c Hc) as Hint.
  lia.
Qed.

(** *** Calls in a row *)

Lemma erase_inserted (sid : string) (e : gset string) :
  sid ∉ e → ({[sid]} ∪ e) ∖ {[sid]} = e.
Proof.
  intros Hnew. apply set_eq. intros x.
  rewrite elem_of_difference, elem_of_union, !elem_of_singleton. split.
  - intros [[-> | Hx] Hne]; done.
  - intros Hx. split; [by right |]. intros ->. done.
Qed.

Lemma set_enrolledStudents_back c e :
  set_enrolledStudents (set_enrolledStudents c e) (enrolledStudents c) = c.
Proof. by destruct c. Qed.

(** What the two calls that write the ledger have in common: the student
    is in the course's set afterwards, a further [registerStudent] for the
    same ID is answered with ALREADY_ENROLLED or REGISTRATION_CLOSED, and
    [withdrawStudent] gives back the ledger as it was. *)
Lemma registerStudent_written now reg s code :
  status (registerStudent MAX_COURSES now reg s code) = Return SUCCESS
  ∨ status (registerStudent MAX_COURSES now reg s code) = Throw runtime_error →
  ∃ c, courses reg !! code = Some c
     ∧ (studentId s ∉ enrolledStudents c)
     ∧ (Z.of_nat (size (enrolledStudents c)) < size_t_of_int (maxCapacity c))%Z
     ∧ reg_after (registerStudent MAX_COURSES now reg s code) =
         {| courses :=
              <[code := set_enrolledStudents c ({[studentId s]} ∪ enrolledStudents c)]>
                (courses reg) |}.
Proof.
  intros Hstatus.
  destruct (registerStudent_dichotomy now reg s code)
    as [(_ & _ & Hns & Hnt) | (c & Hc & _ & Hnew & Hroom & _ & _ & Hafter)].
  - destruct Hstatus; done.
  - by exists c.
Qed.

Lemma registerStudent_written_undo now reg s code :
  status (registerStudent MAX_COURSES now reg s code) = Return SUCCESS
  ∨ status (registerStudent MAX_COURSES now reg s code) = Throw runtime_error →
  withdrawStudent (reg_after (registerStudent MAX_COURSES now reg s code))
    (studentId s) code = (true, reg).
Proof.
  intros Hstatus.
  destruct (registerStudent_written now reg s code Hstatus)
    as (c & Hc & Hnew & _ & Hafter).
  rewrite Hafter. clear Hafter Hstatus.
  set (c' := set_enrolledStudents c ({[studentId s]} ∪ enrolledStudents c)).
  rewrite (withdrawStudent_known _ _ _ c') by apply lookup_insert_eq.
  assert (enrolledStudents c' = {[studentId s]} ∪ enrolledStudents c) as ->
    by reflexivity.
  rewrite bool_decide_eq_true_2
    by (apply elem_of_union; left; by apply elem_of_singleton).
  f_equal. rewrite erase_inserted by done.
  unfold c'. rewrite set_enrolledStudents_back. cbn [courses].
  rewrite insert_insert_eq, insert_id by done. by destruct reg.
Qed.

Lemma registerStudent_written_retry now reg s code now2 s2 :
  status (registerStudent MAX_COURSES now reg s code) = Return SUCCESS
  ∨ status (registerStudent MAX_COURSES now reg s code) = Throw runtime_error →
  studentId s2 = studentId s →
  ∃ c, courses reg !! code = Some c
     ∧ registerStudent MAX_COURSES now2
         (reg_after (registerStudent MAX_COURSES now reg s code)) s2 code =
       mkRegistered
         (Return (if (now2 >? registrationDeadline c)%Z
                  then REGISTRATION_CLOSED else ALREADY_ENROLLED))
         (reg_after (registerStudent MAX_COURSES now reg s code)) s2.
Proof.
  intros Hstatus Hid.
  destruct (registerStudent_written now reg s code Hstatus)
    as (c & Hc & Hnew & _ & Hafter).
  rewrite Hafter. clear Hafter Hstatus.
  exists c. split; [done |].
  set (c' := set_enrolledStudents c ({[studentId s]} ∪ enrolledStudents c)).
  set (reg' := {| courses := <[code := c']> (courses reg) |}).
  assert (courses reg' !! code = Some c') as Hc' by apply lookup_insert_eq.
  destruct (Z.lt_ge_cases (registrationDeadline c) now2) as [Hlate | Hopen].
  - rewrite (registerStudent_closed MAX_COURSES now2 reg' s2 code c' Hc')
      by (cbn [c' set_enrolledStudents registrationDeadline]; lia).
    by rewrite (proj2 (Z.gtb_gt _ _)) by lia.
  - rewrite (registerStudent_open MAX_COURSES now2 reg' s2 code c' Hc')
      by (cbn [c' set_enrolledStudents registrationDeadline]; lia).
    rewrite bool_decide_eq_true_2
      by (cbn [c' set_enrolledStudents enrolledStudents]; rewrite Hid; set_solver).
    assert ((now2 >? registrationDeadline c)%Z = false) as ->
      by (rewrite Z.gtb_ltb; apply Z.ltb_ge; lia).
    done.
Qed.

(** X6. Registering twice: after a call of [registerStudent] that returned
    SUCCESS, a further call for the same course by a student of the same
    ID writes nothing and returns ALREADY_ENROLLED up to the deadline and
    REGISTRATION_CLOSED after it. *)
Theorem registerStudent_twice now reg s code c now2 s2 :
  courses reg !! code = Some c →
  status (registerStudent MAX_COURSES now reg s code) = Return SUCCESS →
  studentId s2 = studentId s →
  let reg1 := reg_after (registerStudent MAX_COURSES now reg s code) in
  let r2 := registerStudent MAX_COURSES now2 reg1 s2 code in
  ((now2 ≤ registrationDeadline c)%Z → status r2 = Return ALREADY_ENROLLED)
  ∧ ((now2 > registrationDeadline c)%Z → status r2 = Return REGISTRATION_CLOSED)
  ∧ reg_after r2 = reg1
  ∧ student_after r2 = s2.
Proof.
  intros Hc Hok Hid reg1 r2. subst reg1 r2.
  destruct (registerStudent_written_retry now reg s code now2 s2 (or_introl Hok) Hid)
    as (c0 & Hc0 & ->).
  assert (c0 = c) as -> by congruence.
  cbn [status reg_after student_after]. split; [| split; [| done]].
  - intros Hopen. assert ((now2 >? registrationDeadline c)%Z = false) as ->
      by (rewrite Z.gtb_ltb; apply Z.ltb_ge; lia). done.
  - intros Hlate. by rewrite (proj2 (Z.gtb_gt _ _) Hlate).
Qed.

(** X7. Registering and withdrawing: after a call of [registerStudent]
    that returned SUCCESS, [withdrawStudent] for that student and course
    returns true and the ledger is again what it was before the
    registration. *)
Theorem register_then_withdraw now reg s code :
  status (registerStudent MAX_COURSES now reg s code) = Return SUCCESS →
  withdrawStudent (reg_after (registerStudent MAX_COURSES now reg s code))
    (studentId s) code = (true, reg).
Proof. intros Hok. apply registerStudent_written_undo. by left. Qed.

(** X8. When [registerStudent] lets [std::runtime_error] through, the
    student is enrolled as far as the ledger goes: the ID is in the
    course's set, a further [registerStudent] before the deadline returns
    ALREADY_ENROLLED, and [withdrawStudent] returns true and gives back the
    ledger as it was before the call. *)
Theorem registerStudent_throw_leaves_enrollment now reg s code c now2 :
  courses reg !! code = Some c →
  status (registerStudent MAX_COURSES now reg s code) = Throw runtime_error →
  let reg1 := reg_after (registerStudent MAX_COURSES now reg s code) in
  (∃ c1, courses reg1 !! code = Some c1
       ∧ studentId s ∈ enrolledStudents c1
       ∧ size (enrolledStudents c1) = S (size (enrolledStudents c)))
  ∧ ((now2 ≤ registrationDeadline c)%Z →
     status (registerStudent MAX_COURSES now2 reg1 s code) = Return ALREADY_ENROLLED)
  ∧ withdrawStudent reg1 (studentId s) code = (true, reg).
Proof.
  intros Hc Hthrow reg1. subst reg1. split; [| split].
  - destruct (registerStudent_written now reg s code (or_intror Hthrow))
      as (c0 & Hc0 & Hnew & _ & Hafter).
    rewrite Hafter. clear Hafter.
    assert (c0 = c) as -> by congruence.
    eexists. cbn [courses]. rewrite lookup_insert_eq. split; [done |].
    cbn [set_enrolledStudents enrolledStudents]. split; [set_solver |].
    by apply size_insert_fresh.
  - intros Hopen.
    destruct (registerStudent_written_retry now reg s code now2 s
                (or_intror Hthrow) eq_refl) as (c0 & Hc0 & ->).
    assert (c0 = c) as -> by congruence. cbn [status].
    assert ((now2 >? registrationDeadline c)%Z = false) as ->
      by (rewrite Z.gtb_ltb; apply Z.ltb_ge; lia). done.
  - apply registerStudent_written_undo. by right.
Qed.

(** X9. Withdrawing twice: a second [withdrawStudent] for the same student
    and course returns false and changes nothing, whatever the first one
    did. *)
Theorem withdrawStudent_twice reg sid code :
  withdrawStudent (withdrawStudent reg sid code).2 sid code
    = (false, (withdrawStudent reg sid code).2).
Proof.
  destruct (courses reg !! code) as [c|] eqn:Hc.
  2: { rewrite (withdrawStudent_unknown reg sid code Hc). cbn [snd].
       by apply withdrawStudent_unknown. }
  rewrite (withdrawStudent_known _ _ _ _ Hc). cbn [snd].
  apply (withdrawStudent_absent _ sid code
           (set_enrolledStudents c (enrolledStudents c ∖ {[sid]}))).
  - apply lookup_insert_eq.
  - cbn [set_enrolledStudents enrolledStudents]. intros Hin.
    apply elem_of_difference in Hin as [_ Hne]. apply Hne. by apply elem_of_singleton.
Qed.

(** X10. In a ledger the program can reach, a withdrawal that returns true
    frees a seat: [isCourseFull] of the course returns false afterwards. *)
Theorem withdrawStudent_frees_seat w sid code :
  reachable MAX_COURSES w →
  (withdrawStudent (registration w) sid code).1 = true →
  isCourseFull (withdrawStudent (registration w) sid code).2 code = Return false.
Proof.
  intros Hreach.
  destruct (courses (registration w) !! code) as [c|] eqn:Hc.
  2: { by rewrite (withdrawStudent_unknown _ sid code Hc). }
  pose proof (reachable_capacity MAX_COURSES w code c Hreach Hc) as [Hsize Hint].
  rewrite (withdrawStudent_known _ _ _ _ Hc). cbn [fst snd].
  intros Hin. apply bool_decide_eq_true in Hin.
  rewrite (isCourseFull_known _ code
             (set_enrolledStudents c (enrolledStudents c ∖ {[sid]})))
    by apply lookup_insert_eq.
  cbn [set_enrolledStudents enrolledStudents maxCapacity].
  pose proof (size_erase_present sid (enrolledStudents c) Hin) as Hdec.
  rewrite size_t_of_int_id by lia. f_equal.
  rewrite Z.geb_leb. apply Z.leb_gt. lia.
Qed.

(** X11. In a ledger the program can reach, a call of [registerStudent]
    that returns SUCCESS raises [getEnrollmentCount] of the course by
    exactly one, and afterwards [isCourseFull] returns true exactly when the
    student took the last seat. *)
Theorem registerStudent_success_count w now s code :
  reachable MAX_COURSES w →
  status (registerStudent MAX_COURSES now (registration w) s code) = Return SUCCESS →
  ∃ c, courses (registration w) !! code = Some c
     ∧ getEnrollmentCount (registration w) code
         = Return (Z.of_nat (size (enrolledStudents c)))
     ∧ getEnrollmentCount
         (reg_after (registerStudent MAX_COURSES now (registration w) s code)) code
         = Return (Z.of_nat (size (enrolledStudents c)) + 1)%Z
     ∧ isCourseFull
         (reg_after (registerStudent MAX_COURSES now (registration w) s code)) code
         = Return (Z.of_nat (size (enrolledStudents c)) + 1 =? maxCapacity c)%Z.
Proof.
  intros Hreach Hok.
  destruct (registerStudent_written now (registration w) s code (or_introl Hok))
    as (c & Hc & Hnew & Hroom & Hafter).
  rewrite Hafter. clear Hafter.
  pose proof (reachable_capacity MAX_COURSES w code c Hreach Hc) as [Hsize Hint].
  rewrite size_t_of_int_id in Hroom by lia.
  exists c. split; [done |].
  set (c' := set_enrolledStudents c ({[studentId s]} ∪ enrolledStudents c)).
  set (reg' := {| courses := <[code := c']> (courses (registration w)) |}).
  assert (courses reg' !! code = Some c') as Hc' by apply lookup_insert_eq.
  assert (size (enrolledStudents c') = S (size (enrolledStudents c))) as Hsz
    by (cbn [c' set_enrolledStudents enrolledStudents]; by apply size_insert_fresh).
  split; [| split].
  - rewrite (getEnrollmentCount_known _ _ _ Hc). by rewrite int_of_size_t_id by lia.
  - rewrite (getEnrollmentCount_known _ _ _ Hc'), Hsz.
    rewrite int_of_size_t_id by lia. f_equal. lia.
  - rewrite (isCourseFull_known _ _ _ Hc'), Hsz.
    cbn [c' set_enrolledStudents maxCapacity].
    rewrite size_t_of_int_id by lia. f_equal. rewrite Z.geb_leb.
    destruct (Z.eqb_spec (Z.of_nat (size (enrolledStudents c)) + 1) (maxCapacity c)).
    + apply Z.leb_le. lia.
    + apply Z.leb_gt. lia.
Qed.

(** *** One cause for each rejection *)

(** X12. For a course of the catalog, each rejection of [registerStudent]
    has exactly one cause, in every ledger: REGISTRATION_CLOSED is returned
    exactly when the time is past the deadline (at the deadline itself the
    registration is still open); ALREADY_ENROLLED exactly when it is not and
    the student ID is in the course's set; COURSE_FULL exactly when neither
    holds and [isCourseFull] is true; PREREQ_NOT_MET exactly when none of
    these holds and [validatePrerequisites] is false. *)
Theorem registerStudent_status_iff now reg s code c :
  courses reg !! code = Some c →
  let r := status (registerStudent MAX_COURSES now reg s code) in
  (r = Return REGISTRATION_CLOSED ↔ (now > registrationDeadline c)%Z)
  ∧ (r = Return ALREADY_ENROLLED ↔
       (now ≤ registrationDeadline c)%Z ∧ studentId s ∈ enrolledStudents c)
  ∧ (r = Return COURSE_FULL ↔
       (now ≤ registrationDeadline c)%Z ∧ (studentId s ∉ enrolledStudents c)
       ∧ isCourseFull reg code = Return true)
  ∧ (r = Return PREREQ_NOT_MET ↔
       (now ≤ registrationDeadline c)%Z ∧ (studentId s ∉ enrolledStudents c)
       ∧ isCourseFull reg code = Return false
       ∧ validatePrerequisites reg s code = false).
Proof.
  intros Hc r. subst r. rewrite (isCourseFull_known _ _ _ Hc).
  destruct (Z.lt_ge_cases (registrationDeadline c) now) as [Hlate | Hopen].
  { rewrite (registerStudent_closed MAX_COURSES now reg s code c); [| done | lia].
    cbn [status]. repeat split; intros; destruct_and?; (done || lia). }
  rewrite (registerStudent_open MAX_COURSES now reg s code c) by done.
  case_bool_decide as Hin.
  { cbn [status]. repeat split; intros; destruct_and?; (done || lia). }
  destruct (_ >=? _)%Z eqn:Hfull.
  { cbn [status]. repeat split; intros; destruct_and?; (done || lia). }
  destruct (validatePrerequisites reg s code) eqn:Hpre; cbn [negb status].
  - destruct (enrollInCourse MAX_COURSES s code).1; cbn [after_checks];
      repeat split; intros; destruct_and?; (done || lia).
  - repeat split; intros; destruct_and?; (done || lia).
Qed.

(** *** What the operations leave alone *)

Lemma same_course_data_refl c : same_course_data c c.
Proof. by repeat split. Qed.

Lemma same_course_data_trans c1 c2 c3 :
  same_course_data c1 c2 → same_course_data c2 c3 → same_course_data c1 c3.
Proof.
  intros (Hn & Hm & Hp & Hd) (Hn' & Hm' & Hp' & Hd').
  repeat split; congruence.
Qed.

Lemma same_course_data_set c e : same_course_data c (set_enrolledStudents c e).
Proof. by repeat split. Qed.

Lemma addCourse_keeps reg code cname capacity prereqs deadline code' c :
  courses reg !! code' = Some c →
  courses (addCourse reg code cname capacity prereqs deadline).2 !! code' = Some c.
Proof.
  intros Hc'. destruct (courses reg !! code) as [c0|] eqn:Hc.
  { by rewrite addCourse_duplicate. }
  destruct (Z.lt_ge_cases capacity 0) as [Hneg | Hpos].
  { by rewrite addCourse_negative. }
  rewrite addCourse_fresh by done. cbn [snd courses].
  rewrite lookup_insert_ne; [done |]. intros <-. congruence.
Qed.

(** [registerStudent] touches one course at most, and there only the set
    of students, to which it adds the student's own ID or nothing. *)
Lemma registerStudent_keeps now reg s code :
  (∀ other, other ≠ code →
     courses (reg_after (registerStudent MAX_COURSES now reg s code)) !! other
       = courses reg !! other)
  ∧ (courses reg !! code = None →
     courses (reg_after (registerStudent MAX_COURSES now reg s code)) !! code = None)
  ∧ (∀ c, courses reg !! code = Some c →
       ∃ c', courses (reg_after (registerStudent MAX_COURSES now reg s code)) !! code
               = Some c'
           ∧ same_course_data c c'
           ∧ enrolledStudents c ⊆ enrolledStudents c'
           ∧ enrolledStudents c' ⊆ {[studentId s]} ∪ enrolledStudents c).
Proof.
  destruct (registerStudent_ledger MAX_COURSES now reg s code)
    as [Hsame | (c0 & Hc0 & _ & _ & Hafter)].
  - rewrite Hsame. split; [done |]. split; [done |].
    intros c Hc. exists c. split; [done |]. split; [apply same_course_data_refl |].
    split; [done |]. apply union_subseteq_r.
  - rewrite Hafter. cbn [courses]. split; [| split].
    + intros other Hne. by rewrite lookup_insert_ne.
    + intros Hnone. congruence.
    + intros c Hc. assert (c0 = c) as -> by congruence.
      eexists. rewrite lookup_insert_eq. split; [done |].
      split; [apply same_course_data_set |].
      cbn [set_enrolledStudents enrolledStudents].
      split; [apply union_subseteq_r | done].
Qed.

(** [withdrawStudent] touches one course at most, and there only the set
    of students, from which it takes the given ID or nothing. *)
Lemma withdrawStudent_keeps reg sid code :
  (∀ other, other ≠ code →
     courses (withdrawStudent reg sid code).2 !! other = courses reg !! other)
  ∧ (courses reg !! code = None →
     courses (withdrawStudent reg sid code).2 !! code = None)
  ∧ (∀ c, courses reg !! code = Some c →
       ∃ c', courses (withdrawStudent reg sid code).2 !! code = Some c'
           ∧ same_course_data c c'
           ∧ enrolledStudents c' = enrolledStudents c ∖ {[sid]}).
Proof.
  destruct (courses reg !! code) as [c|] eqn:Hc.
  - rewrite (withdrawStudent_known _ _ _ _ Hc). cbn [snd courses].
    split; [| split].
    + intros other Hne. by rewrite lookup_insert_ne.
    + done.
    + intros c0 [= <-]. eexists. rewrite lookup_insert_eq. split; [done |].
      split; [apply same_course_data_set | done].
  - rewrite (withdrawStudent_unknown _ _ _ Hc). cbn [snd].
    split; [done |]. split; [done |]. intros c0 Hc0. congruence.
Qed.

Lemma exec_keeps w call0 code c :
  courses (registration w) !! code = Some c →
  ∃ c', courses (registration (exec MAX_COURSES w call0)) !! code = Some c'
      ∧ same_course_data c c'.
Proof.
  intros Hc.
  destruct call0 as [code0 cname cap pre dl | now h code0 | sid code0 | h s];
    cbn [exec registration].
  - exists c. split; [by apply addCourse_keeps | apply same_course_data_refl].
  - destruct (students w !! h) as [s|].
    2: { exists c. split; [done | apply same_course_data_refl]. }
    cbn [registration].
    destruct (registerStudent_keeps now (registration w) s code0)
      as (Hother & _ & Hthis).
    destruct (decide (code = code0)) as [-> | Hne].
    + destruct (Hthis c Hc) as (c' & Hc' & Hdata & _). by exists c'.
    + exists c. rewrite Hother by done. split; [done | apply same_course_data_refl].
  - destruct (withdrawStudent_keeps (registration w) sid code0)
      as (Hother & _ & Hthis).
    destruct (decide (code = code0)) as [-> | Hne].
    + destruct (Hthis c Hc) as (c' & Hc' & Hdata & _). by exists c'.
    + exists c. rewrite Hother by done. split; [done | apply same_course_data_refl].
  - exists c. split; [done | apply same_course_data_refl].
Qed.

(** X13. No call removes a course or rewrites what [addCourse] stored for
    it: a course that is in the catalog is still there after every sequence
    of calls, under the same code and with the same name, capacity,
    prerequisites and deadline. *)
Theorem catalog_persists calls w code c :
  courses (registration w) !! code = Some c →
  ∃ c', courses (registration (run MAX_COURSES calls w)) !! code = Some c'
      ∧ same_course_data c c'.
Proof.
  revert w c. induction calls as [|call0 calls IH]; intros w c Hc.
  - exists c. split; [done | apply same_course_data_refl].
  - destruct (exec_keeps w call0 code c Hc) as (c1 & Hc1 & Hdata1).
    destruct (IH _ _ Hc1) as (c2 & Hc2 & Hdata2).
    exists c2. split; [exact Hc2 |]. by apply (same_course_data_trans c c1 c2).
Qed.

(** X14. [registerStudent] writes at most the set of students of the
    course it is called for, whatever it returns or throws: the other
    courses are as they were, no course appears or disappears, none of the
    students already enrolled is dropped, and the only ID that can be new in
    the set is the student's own. *)
Theorem registerStudent_frame now reg s code :
  (∀ other, other ≠ code →
     courses (reg_after (registerStudent MAX_COURSES now reg s code)) !! other
       = courses reg !! other)
  ∧ dom (courses (reg_after (registerStudent MAX_COURSES now reg s code)))
      = dom (courses reg)
  ∧ (∀ c, courses reg !! code = Some c →
       ∃ c', courses (reg_after (registerStudent MAX_COURSES now reg s code)) !! code
               = Some c'
           ∧ same_course_data c c'
           ∧ enrolledStudents c ⊆ enrolledStudents c'
           ∧ enrolledStudents c' ⊆ {[studentId s]} ∪ enrolledStudents c).
Proof.
  destruct (registerStudent_keeps now reg s code) as (Hother & Hnone & Hthis).
  split; [exact Hother |]. split; [| exact Hthis].
  apply set_eq. intros k. rewrite !elem_of_dom.
  destruct (decide (k = code)) as [-> | Hne].
  - destruct (courses reg !! code) as [c|] eqn:Hc.
    + destruct (Hthis c eq_refl) as (c' & -> & _). split; intros _; by eexists.
    + by rewrite Hnone.
  - by rewrite Hother.
Qed.

(** *** validatePrerequisites *)

Lemma validatePrerequisites_ext reg1 reg2 s code :
  prerequisites <$> courses reg1 !! code = prerequisites <$> courses reg2 !! code →
  validatePrerequisites reg1 s code = validatePrerequisites reg2 s code.
Proof.
  unfold validatePrerequisites.
  destruct (courses reg1 !! code), (courses reg2 !! code); simpl; intros Heq;
    try done. by injection Heq as ->.
Qed.

(** X15. [validatePrerequisites] is true for a course without
    prerequisites, whoever the student; and once true for a student it
    stays true when courses are added to the student's list. *)
Theorem validatePrerequisites_monotone reg s s' code c :
  courses reg !! code = Some c →
  (prerequisites c = ∅ → validatePrerequisites reg s code = true)
  ∧ (enrolledCourses s ⊆ enrolledCourses s' →
     validatePrerequisites reg s code = true →
     validatePrerequisites reg s' code = true).
Proof.
  intros Hc. rewrite !(validatePrerequisites_known reg _ code c Hc). split.
  - intros Hempty p Hp. rewrite Hempty in Hp. by apply not_elem_of_empty in Hp.
  - intros Hsub Hall p Hp. apply Hsub, Hall, Hp.
Qed.

(** X16. Enrolling and withdrawing never change who meets the
    prerequisites of which course: [validatePrerequisites] gives the same
    answer, for every student and course, in the ledger left by a call of
    [registerStudent] or [withdrawStudent] as in the one before it. *)
Theorem validatePrerequisites_stable now reg s code sid s' code' :
  validatePrerequisites (reg_after (registerStudent MAX_COURSES now reg s code)) s' code'
    = validatePrerequisites reg s' code'
  ∧ validatePrerequisites (withdrawStudent reg sid code).2 s' code'
    = validatePrerequisites reg s' code'.
Proof.
  split; apply validatePrerequisites_ext.
  - destruct (registerStudent_keeps now reg s code) as (Hother & Hnone & Hthis).
    destruct (decide (code' = code)) as [-> | Hne]; [| by rewrite Hother].
    destruct (courses reg !! code) as [c|] eqn:Hc.
    + destruct (Hthis c eq_refl) as (c' & -> & (_ & _ & Hp & _) & _). simpl. by rewrite Hp.
    + by rewrite Hnone.
  - destruct (withdrawStudent_keeps reg sid code) as (Hother & Hnone & Hthis).
    destruct (decide (code' = code)) as [-> | Hne]; [| by rewrite Hother].
    destruct (courses reg !! code) as [c|] eqn:Hc.
    + destruct (Hthis c eq_refl) as (c' & -> & (_ & _ & Hp & _) & _). simpl. by rewrite Hp.
    + by rewrite Hnone.
Qed.

End Ledger.

(** ** The further properties at work *)

Lemma cs201_world_reachable : reachable 6 cs201_world.
Proof.
  exists [add_cs201]. split; [| reflexivity].
  apply Forall_cons. split; [| by apply Forall_nil].
  simpl. unfold INT_MIN, INT_MAX. lia.
Defined.

Lemma alice_registers_cs201 :
  status (registerStudent 6 50 ledger_cs201 alice "CS201") = Return SUCCESS.
Proof. vm_compute. reflexivity. Qed.

Lemma carol_registers_cs201 :
  status (registerStudent 6 50 ledger_cs201 carol "CS201") = Throw runtime_error.
Proof. vm_compute. reflexivity. Qed.

Lemma getEnrollmentCount_exact_witness :
  getEnrollmentCount (registration seminar_world) "SE301"
    = Return (Z.of_nat (size (enrolledStudents seminar_taken)))
  ∧ getEnrollmentCount (registration seminar_world) "XX000" = Throw out_of_range.
Proof.
  split.
  - destruct (getEnrollmentCount_exact 6 seminar_world "SE301" seminar_world_reachable)
      as [_ Hknown].
    apply (Hknown seminar_taken ledger_seminar_lookup).
  - destruct (getEnrollmentCount_exact 6 seminar_world "XX000" seminar_world_reachable)
      as [Hunknown _].
    apply Hunknown. vm_compute. reflexivity.
Defined.

Lemma isCourseFull_iff_witness :
  isCourseFull (registration seminar_world) "SE301" = Return true
  ∧ isCourseFull (registration cs201_world) "CS201" = Return false.
Proof.
  split.
  - destruct (isCourseFull_iff 6 seminar_world "SE301" seminar_world_reachable)
      as [_ Hknown].
    apply (Hknown seminar_taken ledger_seminar_lookup). vm_compute. reflexivity.
  - destruct (isCourseFull_iff 6 cs201_world "CS201" cs201_world_reachable)
      as [_ Hknown].
    apply (Hknown cs201 ledger_cs201_lookup). vm_compute. reflexivity.
Defined.

Lemma registerStudent_respects_isCourseFull_witness :
  reg_after (registerStudent 6 50 ledger_seminar bob "SE301") = ledger_seminar
  ∧ isCourseFull ledger_seminar "SE301" = Return true.
Proof.
  destruct (registerStudent_respects_isCourseFull 6 50 ledger_seminar bob "SE301")
    as [Hfull Hnothing].
  split.
  - apply Hnothing. vm_compute. reflexivity.
  - apply Hfull. vm_compute. reflexivity.
Defined.

Lemma addCourse_then_witness :
  getEnrollmentCount (addCourse ledger_cs201 "MA101" "Calculus" 0 ∅ 0).2 "MA101"
    = Return 0%Z
  ∧ isCourseFull (addCourse ledger_cs201 "MA101" "Calculus" 0 ∅ 0).2 "MA101"
    = Return (0 =? 0)%Z.
Proof.
  destruct (addCourse_then ledger_cs201 "MA101" "Calculus" 0 ∅ 0) as (Hcount & Hfull & _).
  - vm_compute. reflexivity.
  - unfold INT_MAX. lia.
  - split; [exact Hcount | exact Hfull].
Defined.

Lemma capacity_never_negative_witness :
  (0 ≤ maxCapacity seminar_taken ≤ INT_MAX)%Z.
Proof.
  apply (capacity_never_negative 6 seminar_world "SE301").
  - exact seminar_world_reachable.
  - exact ledger_seminar_lookup.
Defined.

Lemma registerStudent_twice_witness :
  status (registerStudent 6 60 ledger_alice_in_cs201 alice_in_cs201 "CS201")
    = Return ALREADY_ENROLLED
  ∧ status (registerStudent 6 101 ledger_alice_in_cs201 alice_in_cs201 "CS201")
    = Return REGISTRATION_CLOSED.
Proof.
  split.
  - destruct (registerStudent_twice 6 50 ledger_cs201 alice "CS201" cs201 60 alice_in_cs201
                ledger_cs201_lookup alice_registers_cs201 eq_refl) as (Hopen & _).
    apply Hopen. simpl. lia.
  - destruct (registerStudent_twice 6 50 ledger_cs201 alice "CS201" cs201 101 alice_in_cs201
                ledger_cs201_lookup alice_registers_cs201 eq_refl) as (_ & Hlate & _).
    apply Hlate. simpl. lia.
Defined.

Lemma register_then_withdraw_witness :
  withdrawStudent ledger_alice_in_cs201 (studentId alice) "CS201" = (true, ledger_cs201).
Proof. apply (register_then_withdraw 6 50 ledger_cs201 alice "CS201"), alice_registers_cs201. Defined.

Lemma registerStudent_throw_leaves_enrollment_witness :
  status (registerStudent 6 60
            (reg_after (registerStudent 6 50 ledger_cs201 carol "CS201")) carol "CS201")
    = Return ALREADY_ENROLLED
  ∧ withdrawStudent (reg_after (registerStudent 6 50 ledger_cs201 carol "CS201"))
      (studentId carol) "CS201" = (true, ledger_cs201).
Proof.
  destruct (registerStudent_throw_leaves_enrollment 6 50 ledger_cs201 carol "CS201" cs201 60
              ledger_cs201_lookup carol_registers_cs201) as (_ & Hretry & Hundo).
  split; [| exact Hundo]. apply Hretry. simpl. lia.
Defined.

Lemma withdrawStudent_frees_seat_witness :
  isCourseFull (withdrawStudent (registration seminar_world) "S1" "SE301").2 "SE301"
    = Return false.
Proof.
  apply (withdrawStudent_frees_seat 6 seminar_world "S1" "SE301").
  - exact seminar_world_reachable.
  - vm_compute. reflexivity.
Defined.

Lemma registerStudent_success_count_witness :
  ∃ c, courses (registration cs201_world) !! "CS201" = Some c
     ∧ getEnrollmentCount (registration cs201_world) "CS201"
         = Return (Z.of_nat (size (enrolledStudents c)))
     ∧ getEnrollmentCount
         (reg_after (registerStudent 6 50 (registration cs201_world) alice "CS201")) "CS201"
         = Return (Z.of_nat (size (enrolledStudents c)) + 1)%Z
     ∧ isCourseFull
         (reg_after (registerStudent 6 50 (registration cs201_world) alice "CS201")) "CS201"
         = Return (Z.of_nat (size (enrolledStudents c)) + 1 =? maxCapacity c)%Z.
Proof.
  apply (registerStudent_success_count 6 cs201_world 50 alice "CS201").
  - exact cs201_world_reachable.
  - exact alice_registers_cs201.
Defined.

(** At the deadline itself the registration is still open. *)
Lemma registerStudent_status_iff_witness :
  status (registerStudent 6 100 ledger_seminar alice "SE301") = Return ALREADY_ENROLLED
  ∧ status (registerStudent 6 101 ledger_seminar alice "SE301") = Return REGISTRATION_CLOSED
  ∧ status (registerStudent 6 100 ledger_seminar bob "SE301") = Return COURSE_FULL.
Proof.
  split; [| split].
  - destruct (registerStudent_status_iff 6 100 ledger_seminar alice "SE301" seminar_taken
                ledger_seminar_lookup) as (_ & Henrolled & _).
    apply Henrolled. split; [simpl; lia | vm_compute; reflexivity].
  - destruct (registerStudent_status_iff 6 101 ledger_seminar alice "SE301" seminar_taken
                ledger_seminar_lookup) as (Hclosed & _).
    apply Hclosed. simpl. lia.
  - destruct (registerStudent_status_iff 6 100 ledger_seminar bob "SE301" seminar_taken
                ledger_seminar_lookup) as (_ & _ & Hfull & _).
    apply Hfull. split; [simpl; lia |].
    split; [vm_compute; discriminate | vm_compute; reflexivity].
Defined.

Lemma catalog_persists_witness :
  ∃ c', courses (registration (run 6 withdrawn_calls cs201_world)) !! "CS201" = Some c'
      ∧ same_course_data cs201 c'.
Proof.
  apply (catalog_persists 6 withdrawn_calls cs201_world "CS201" cs201).
  exact ledger_cs201_lookup.
Defined.

Lemma registerStudent_frame_witness :
  courses (reg_after (registerStudent 6 50 ledger_cs201 alice "CS201")) !! "SE301"
    = courses ledger_cs201 !! "SE301"
  ∧ ∃ c', courses (reg_after (registerStudent 6 50 ledger_cs201 alice "CS201")) !! "CS201"
            = Some c'
        ∧ same_course_data cs201 c'
        ∧ enrolledStudents cs201 ⊆ enrolledStudents c'
        ∧ enrolledStudents c' ⊆ {[studentId alice]} ∪ enrolledStudents cs201.
Proof.
  destruct (registerStudent_frame 6 50 ledger_cs201 alice "CS201")
    as (Hother & _ & Hthis).
  split.
  - apply Hother. discriminate.
  - apply Hthis. exact ledger_cs201_lookup.
Defined.

Lemma ledger_cs301_lookup : courses ledger_cs301 !! "CS301" = Some cs301.
Proof. vm_compute. reflexivity. Qed.

Lemma validatePrerequisites_monotone_witness :
  validatePrerequisites ledger_cs201 alice "CS201" = true
  ∧ validatePrerequisites ledger_cs301 alice_two_courses "CS301" = true.
Proof.
  split.
  - destruct (validatePrerequisites_monotone ledger_cs201 alice alice "CS201" cs201
                ledger_cs201_lookup) as [Hnone _].
    apply Hnone. reflexivity.
  - destruct (validatePrerequisites_monotone ledger_cs301 alice_in_cs201 alice_two_courses
                "CS301" cs301 ledger_cs301_lookup) as [_ Hmore].
    apply Hmore.
    + intros x Hx. simpl in Hx |- *. apply list_elem_of_singleton in Hx as ->.
      apply elem_of_cons. by left.
    + vm_compute. reflexivity.
Defined.
